(** * Mem24CSM01: driver for the Microchip 24CSM01 I2C EEPROM

    A shallow embedding of [Mem24CSM01] (MIC24CSM01.h and its
    implementation file) and the properties of its operations.

    Fixed-width C integers are integers of [Z] with the wrap-around written
    out ([u8], [u16], [u32]).  The driver object and the [Wire] bus are the
    two pieces of mutable state; every method is a state transformer in the
    monad [M].  The [Wire] library itself is not part of the repository: it
    is the [Wire] module below, a log of the bus calls the driver makes
    together with an arbitrary [transport] that answers them. *)

From Stdlib Require Import ZArith List Bool Lia.
Import ListNotations.
Local Open Scope Z_scope.

(** ** Fixed-width unsigned integers *)

Definition u8 (x : Z) : Z := x mod 2 ^ 8.
Definition u16 (x : Z) : Z := x mod 2 ^ 16.
Definition u32 (x : Z) : Z := x mod 2 ^ 32.

(** A [bool] used as an integer operand ([true] is 1, [false] is 0). *)
Definition b2z (b : bool) : Z := if b then 1 else 0.

(** An integer converted to [bool]: every non-zero value is [true]. *)
Definition z2b (x : Z) : bool := negb (x =? 0).

(** A binary literal, most significant digit first: [bin [1;0;1]] is
    [0b101]. *)
Definition bin (digits : list Z) : Z := fold_left (fun acc d => 2 * acc + d) digits 0.

(** ** Constants of MIC24CSM01.h *)

Definition BASE_MEMREG_ADDR : Z := bin [1;0;1;0;0;0;0].
Definition BASE_CFGREG_ADDR : Z := bin [1;0;1;1;0;0;0].

Definition CFGREG_WRD_ADDRH : Z := bin [1;0;0;0;1;0;0;0].
Definition CFGREG_WRD_ADDRL : Z := bin [0;0;0;0;0;0;0;0].

Definition SECREG_WRD_ADDRH : Z := bin [0;0;0;0;1;0;0;0].
Definition SECREG_WRD_ADDRL : Z := bin [0;0;0;0;0;0;0;0].
Definition SERIAL_NUMBER_BYTE_SIZE : Z := 16.

Definition FIRST_RESERVED_HOST_CODE : Z := bin [1;1;1;1;1;0;0].
Definition SECOND_RESERVED_HOST_CODE : Z := bin [1;1;1;1;1;0;0].

(** The three masks are unparenthesised shifts ([0b1 << 15]); [<<] binds
    tighter than the [&] they are used with. *)
Definition ECS_MASK : Z := Z.shiftl 1 15.
Definition EWPM_MASK : Z := Z.shiftl 1 9.
Definition LOCK_MASK : Z := Z.shiftl 1 8.

Definition REGISTER_LOCKED : Z := 0x99.
Definition REGISTER_UNLOCKED : Z := 0x66.

Definition MAX_MEMORY_ADDRESS_VALUE : Z := 0x1FFFF.
Definition MAX_MEMORY_PAGE_SIZE : Z := 256.

(** ** Data model *)

Inductive MEMORYRESULT : Type :=
| OK
| ADDRESS_EXCEEDS_LIMIT
| BUFFER_TOO_LARGE
| NOT_ON_SINGLE_PAGE
| ADDRESS_ERROR
| DATA_ERROR
| TIMEOUT
| GENERIC_ERROR.

Record ConfigurationRegister : Type := mkConfigurationRegister {
  isErrorCorrectionOccured : bool;
  isSoftwareWriteProtect : bool;
  isConfigLocked : bool;
  zoneProtection : Z
}.

Record WriteAddressPacket : Type := mkWriteAddressPacket {
  deviceMemoryAddress : Z;
  memoryMSB : Z;
  memoryLSB : Z
}.

(** The data members of [class Mem24CSM01] the operations use. *)
Record Mem24CSM01 : Type := mkMem24CSM01 {
  m_dev_address_memory_access : Z;
  m_dev_address_configuration_reg : Z;
  m_dev_address_security_register : Z;
  m_configuration : ConfigurationRegister
}.

Definition set_configuration (c : ConfigurationRegister) (d : Mem24CSM01) : Mem24CSM01 :=
  mkMem24CSM01 (m_dev_address_memory_access d) (m_dev_address_configuration_reg d)
    (m_dev_address_security_register d) c.

Definition set_zoneProtection (z : Z) (c : ConfigurationRegister) : ConfigurationRegister :=
  mkConfigurationRegister (isErrorCorrectionOccured c) (isSoftwareWriteProtect c)
    (isConfigLocked c) z.

Definition set_isConfigLocked (b : bool) (c : ConfigurationRegister) : ConfigurationRegister :=
  mkConfigurationRegister (isErrorCorrectionOccured c) (isSoftwareWriteProtect c)
    b (zoneProtection c).

Definition set_isSoftwareWriteProtect (b : bool) (c : ConfigurationRegister)
  : ConfigurationRegister :=
  mkConfigurationRegister (isErrorCorrectionOccured c) b (isConfigLocked c) (zoneProtection c).

Definition set_isErrorCorrectionOccured (b : bool) (c : ConfigurationRegister)
  : ConfigurationRegister :=
  mkConfigurationRegister b (isSoftwareWriteProtect c) (isConfigLocked c) (zoneProtection c).

(** A caller's byte array, written through a pointer: [store i v buf] is
    [buf[i] = v].  An index past the end of the list is outside the array the
    caller handed in; the list is then left as it is. *)
Fixpoint store (i : nat) (v : Z) (buf : list Z) : list Z :=
  match buf, i with
  | [], _ => []
  | _ :: rest, O => v :: rest
  | b :: rest, S j => b :: store j v rest
  end.

(** ** The zone-mask helper *)

Module ZoneMask.

(** The free function
    [uint8_t zoneProtection(bool zone7, ..., bool zone0)]; it shares its name
    with the member of [ConfigurationRegister]. *)
Definition zoneProtection (zone7 zone6 zone5 zone4 zone3 zone2 zone1 zone0 : bool) : Z :=
  let protectionPattern := 0 in
  u8 (Z.lor protectionPattern
        (Z.lor (Z.lor (Z.lor (Z.lor (Z.lor (Z.lor (Z.lor
           (Z.shiftl (b2z zone7) 7) (Z.shiftl (b2z zone6) 6)) (Z.shiftl (b2z zone5) 5))
           (Z.shiftl (b2z zone4) 4)) (Z.shiftl (b2z zone3) 3)) (Z.shiftl (b2z zone2) 2))
           (Z.shiftl (b2z zone1) 1)) (b2z zone0))).

End ZoneMask.

(** ** The I2C transport *)

Module Wire.

(** The calls the driver makes on the [Wire] object, in the order it makes
    them; [Wire.read()] and [Wire.available()] only look at the receive
    buffer and are not recorded. *)
Inductive event : Type :=
| BeginTransmission (address : Z)
| Write (byte : Z)
| EndTransmission (sendStop : bool)
| RequestFrom (address quantity : Z) (sendStop : bool).

(** What the library and the device behind it answer, as a function of
    every call made so far: the completion status of [endTransmission], and
    the bytes a [requestFrom] makes available.  Nothing is assumed about the
    answers (a status may be any [int], a delivery may be shorter than the
    quantity asked for), so a statement about every [transport] covers every
    bus. *)
Record transport : Type := mkTransport {
  endStatus : list event -> Z;
  deliver : list event -> list Z
}.

(** The [Wire] object: the calls made so far and the receive buffer. *)
Record bus : Type := mkBus {
  trace : list event;
  rx : list Z
}.

End Wire.

(** ** The state monad of the driver *)

Record world : Type := mkWorld {
  dev : Mem24CSM01;
  wire : Wire.bus
}.

Definition M (A : Type) : Type := world -> A * world.

Definition ret {A : Type} (a : A) : M A := fun w => (a, w).

Definition bind {A B : Type} (c : M A) (k : A -> M B) : M B :=
  fun w => let (a, w') := c w in k a w'.

Declare Scope drv_scope.
Delimit Scope drv_scope with drv.
Notation "x <- c ;; k" := (bind c (fun x => k))
  (at level 61, c at next level, right associativity) : drv_scope.
Notation "c ;; k" := (bind c (fun _ => k))
  (at level 61, right associativity) : drv_scope.
Local Open Scope drv_scope.

Definition this : M Mem24CSM01 := fun w => (dev w, w).

Definition modify_configuration (f : ConfigurationRegister -> ConfigurationRegister) : M unit :=
  fun w => (tt, mkWorld (set_configuration (f (m_configuration (dev w))) (dev w)) (wire w)).

Definition emit (e : Wire.event) : M unit :=
  fun w => (tt, mkWorld (dev w) (Wire.mkBus (Wire.trace (wire w) ++ [e]) (Wire.rx (wire w)))).

Section Driver.

Variable T : Wire.transport.

(** *** [Wire] primitives *)

Definition Wire_beginTransmission (address : Z) : M unit :=
  emit (Wire.BeginTransmission address).

Definition Wire_write (byte : Z) : M unit :=
  emit (Wire.Write (u8 byte)).

Definition Wire_endTransmission (sendStop : bool) : M Z :=
  emit (Wire.EndTransmission sendStop) ;;
  fun w => (Wire.endStatus T (Wire.trace (wire w)), w).

(** [Wire.requestFrom] fills the receive buffer with what the transport
    delivers and returns the number of bytes delivered. *)
Definition Wire_requestFrom (address quantity : Z) (sendStop : bool) : M Z :=
  emit (Wire.RequestFrom address quantity sendStop) ;;
  fun w =>
    let bytes := Wire.deliver T (Wire.trace (wire w)) in
    (Z.of_nat (length bytes), mkWorld (dev w) (Wire.mkBus (Wire.trace (wire w)) bytes)).

Definition Wire_available : M Z :=
  fun w => (Z.of_nat (length (Wire.rx (wire w))), w).

(** [Wire.read()] is an [int]: the next buffered byte, or -1 when the receive
    buffer is empty. *)
Definition Wire_read : M Z :=
  fun w =>
    match Wire.rx (wire w) with
    | [] => (-1, w)
    | b :: rest => (b, mkWorld (dev w) (Wire.mkBus (Wire.trace (wire w)) rest))
    end.

(** *** Constructors

    Neither constructor initialises every member; [raw] is the storage the
    object is built in, and the members a constructor does not assign keep
    its contents. *)

(** [Mem24CSM01::Mem24CSM01(uint8_t word_mem_acc)] *)
Definition Mem24CSM01_byte (word_mem_acc : Z) (raw : Mem24CSM01) : Mem24CSM01 :=
  let mem := u8 word_mem_acc in
  mkMem24CSM01 mem (u8 (Z.lor mem (Z.shiftl 1 4)))
    (m_dev_address_security_register raw) (m_configuration raw).

(** [Mem24CSM01::Mem24CSM01(bool A1, bool A2)] *)
Definition Mem24CSM01_pins (A1 A2 : bool) (raw : Mem24CSM01) : Mem24CSM01 :=
  let mem :=
    u8 (Z.lor (Z.lor BASE_MEMREG_ADDR (Z.shiftl (b2z A2) 3)) (Z.shiftl (b2z A1) 2)) in
  let cfg :=
    u8 (Z.lor (Z.lor BASE_CFGREG_ADDR (Z.shiftl (b2z A2) 3)) (Z.shiftl (b2z A1) 2)) in
  mkMem24CSM01 mem cfg cfg (m_configuration raw).

(** *** Configuration register *)

(** [uint16_t Mem24CSM01::getConfiguration()] *)
Definition getConfiguration : M Z :=
  d <- this ;;
  Wire_beginTransmission (m_dev_address_configuration_reg d) ;;
  Wire_write CFGREG_WRD_ADDRH ;;
  Wire_write CFGREG_WRD_ADDRL ;;
  _ <- Wire_endTransmission false ;;
  _ <- Wire_requestFrom (m_dev_address_configuration_reg d) 2 true ;;
  r1 <- Wire_read ;;
  r2 <- Wire_read ;;
  let high := u8 r1 in
  let low := u8 r2 in
  let result := u16 (Z.lor (Z.shiftl high 8) low) in
  modify_configuration (set_zoneProtection low) ;;
  modify_configuration (set_isConfigLocked (z2b (Z.land result LOCK_MASK))) ;;
  modify_configuration (set_isSoftwareWriteProtect (z2b (Z.land result EWPM_MASK))) ;;
  modify_configuration (set_isErrorCorrectionOccured (z2b (Z.land result ECS_MASK))) ;;
  ret result.

(** The loop of [getSerialNumber]:
    [for (int nBytes = 0; nBytes < arraySize; nBytes++) data[nBytes] = Wire.read();]
    with [count] iterations left. *)
Fixpoint getSerialNumber_loop (count nBytes : nat) (data : list Z) : M (list Z) :=
  match count with
  | O => ret data
  | S count' =>
      b <- Wire_read ;;
      getSerialNumber_loop count' (S nBytes) (store nBytes (u8 b) data)
  end.

(** [bool Mem24CSM01::getSerialNumber(uint8_t *data, uint8_t arraySize)];
    the array [data] points to is returned with the result. *)
Definition getSerialNumber (data : list Z) (arraySize : Z) : M (bool * list Z) :=
  if negb (arraySize =? SERIAL_NUMBER_BYTE_SIZE) then ret (false, data)
  else
    d <- this ;;
    Wire_beginTransmission (m_dev_address_security_register d) ;;
    Wire_write SECREG_WRD_ADDRH ;;
    Wire_write SECREG_WRD_ADDRL ;;
    _ <- Wire_endTransmission false ;;
    _ <- Wire_requestFrom (m_dev_address_security_register d) 16 true ;;
    data' <- getSerialNumber_loop (Z.to_nat arraySize) 0 data ;;
    ret (true, data').

(** [bool Mem24CSM01::updateConfigRegister(uint8_t confirmLock)] *)
Definition updateConfigRegister (confirmLock : Z) : M bool :=
  d <- this ;;
  let cfgHighByte :=
    u8 (Z.lor (Z.lor 0 (Z.shiftl (b2z (isSoftwareWriteProtect (m_configuration d))) 1))
          (b2z (isConfigLocked (m_configuration d)))) in
  let cfgLowByte := zoneProtection (m_configuration d) in
  Wire_beginTransmission (m_dev_address_configuration_reg d) ;;
  Wire_write CFGREG_WRD_ADDRH ;;
  Wire_write CFGREG_WRD_ADDRL ;;
  Wire_write cfgHighByte ;;
  Wire_write cfgLowByte ;;
  Wire_write confirmLock ;;
  status <- Wire_endTransmission true ;;
  if negb (status =? 0) then ret false else ret true.

(** The default argument of [updateConfigRegister] in the class declaration. *)
Definition confirmLock_default : Z := 0x66.

(** [bool Mem24CSM01::enableSoftwareWriteProtect()] *)
Definition enableSoftwareWriteProtect : M bool :=
  modify_configuration (set_isSoftwareWriteProtect true) ;;
  updateConfigRegister confirmLock_default.

(** [bool Mem24CSM01::disableSoftwareWriteProtect()] *)
Definition disableSoftwareWriteProtect : M bool :=
  modify_configuration (set_isSoftwareWriteProtect false) ;;
  updateConfigRegister confirmLock_default.

(** Arduino's [bitSet(value, bit)], [((value) |= (1UL << (bit)))], on a
    [uint8_t] value. *)
Definition bitSet (value bit : Z) : Z :=
  u8 (Z.lor value (u32 (Z.shiftl 1 bit))).

(** Arduino's [bitClear(value, bit)], [((value) &= ~(1UL << (bit)))], on a
    [uint8_t] value. *)
Definition bitClear (value bit : Z) : Z :=
  u8 (Z.land value (u32 (Z.lnot (u32 (Z.shiftl 1 bit))))).

(** [bool Mem24CSM01::setWriteProtectionZone(uint8_t zone)].  The macro
    assigns to [m_configuration.zoneProtection] and its value is assigned
    once more through [temp_zoneProtection]. *)
Definition setWriteProtectionZone (zone : Z) : M bool :=
  if (zone >=? 0) && (zone <=? 7) then
    d <- this ;;
    let temp_zoneProtection := bitSet (zoneProtection (m_configuration d)) zone in
    modify_configuration (set_zoneProtection temp_zoneProtection) ;;
    modify_configuration (set_zoneProtection temp_zoneProtection) ;;
    ok <- updateConfigRegister confirmLock_default ;;
    if ok then ret true else ret false
  else ret false.

(** [bool Mem24CSM01::writeProtection(uint8_t zones)] *)
Definition writeProtection (zones : Z) : M bool :=
  modify_configuration (set_zoneProtection (u8 zones)) ;;
  updateConfigRegister confirmLock_default.

(** [bool Mem24CSM01::removeWriteProtectionZone(uint8_t zone)] *)
Definition removeWriteProtectionZone (zone : Z) : M bool :=
  if (zone >=? 0) && (zone <=? 7) then
    d <- this ;;
    let temp_zoneProtection := bitClear (zoneProtection (m_configuration d)) zone in
    modify_configuration (set_zoneProtection temp_zoneProtection) ;;
    modify_configuration (set_zoneProtection temp_zoneProtection) ;;
    ok <- updateConfigRegister confirmLock_default ;;
    if ok then ret true else ret false
  else ret false.

(** *** Memory access *)

(** [WriteAddressPacket Mem24CSM01::configureAddressPacket(uint32_t address)] *)
Definition configureAddressPacket (address : Z) : M WriteAddressPacket :=
  d <- this ;;
  let highAddrBit := u8 (Z.land (Z.shiftr address 17) 1) in
  ret (mkWriteAddressPacket
         (u8 (Z.lor (m_dev_address_memory_access d) (Z.shiftl highAddrBit 1)))
         (u8 (Z.land (Z.shiftr address 8) 0xFF))
         (u8 (Z.land address 0xFF))).

(** [MEMORYRESULT Mem24CSM01::processTransmissionResult(int transmissionResult)] *)
Definition processTransmissionResult (transmissionResult : Z) : MEMORYRESULT :=
  match transmissionResult with
  | 0 => OK
  | 2 => ADDRESS_ERROR
  | 3 => DATA_ERROR
  | 5 => TIMEOUT
  | _ => GENERIC_ERROR
  end.

(** [uint8_t Mem24CSM01::addressMemoryPointer(uint32_t address)] *)
Definition addressMemoryPointer (address : Z) : M Z :=
  writeAddressPacket <- configureAddressPacket address ;;
  Wire_beginTransmission (deviceMemoryAddress writeAddressPacket) ;;
  Wire_write (memoryMSB writeAddressPacket) ;;
  Wire_write (memoryLSB writeAddressPacket) ;;
  ret (deviceMemoryAddress writeAddressPacket).

(** The loop of [write]:
    [for (unsigned int i = 0; i < arraySize; ++i) Wire.write(dataArray[i]);]
    with [count] iterations left.  An element past the end of the list is
    outside the array the caller handed in and reads as 0. *)
Fixpoint write_loop (count i : nat) (dataArray : list Z) : M unit :=
  match count with
  | O => ret tt
  | S count' =>
      Wire_write (nth i dataArray 0) ;;
      write_loop count' (S i) dataArray
  end.

(** [MEMORYRESULT Mem24CSM01::write(uint32_t address, uint8_t *dataArray, size_t arraySize)].
    [address + arraySize - 1] is computed in 32-bit unsigned arithmetic
    ([size_t] is at most 32 bits wide on the boards the library targets). *)
Definition write (address : Z) (dataArray : list Z) (arraySize : Z) : M MEMORYRESULT :=
  if address >? MAX_MEMORY_ADDRESS_VALUE then ret ADDRESS_EXCEEDS_LIMIT
  else if arraySize >? MAX_MEMORY_PAGE_SIZE then ret BUFFER_TOO_LARGE
  else if u32 (address + arraySize - 1) >? 0xFF then ret NOT_ON_SINGLE_PAGE
  else
    writeAddressPacket <- configureAddressPacket address ;;
    Wire_beginTransmission (deviceMemoryAddress writeAddressPacket) ;;
    Wire_write (memoryMSB writeAddressPacket) ;;
    Wire_write (memoryLSB writeAddressPacket) ;;
    write_loop (Z.to_nat arraySize) 0 dataArray ;;
    transmissionResult <- Wire_endTransmission true ;;
    ret (processTransmissionResult transmissionResult).

(** [MEMORYRESULT Mem24CSM01::write(uint32_t address, uint8_t singleByte)] *)
Definition write_byte (address singleByte : Z) : M MEMORYRESULT :=
  write address [u8 singleByte] 1.

(** [MEMORYRESULT Mem24CSM01::read(uint8_t *data)], the current-address read;
    the byte [data] points to is returned with the result. *)
Definition read_current (data : Z) : M (MEMORYRESULT * Z) :=
  d <- this ;;
  Wire_beginTransmission (m_dev_address_memory_access d) ;;
  _ <- Wire_endTransmission true ;;
  count <- Wire_requestFrom (m_dev_address_memory_access d) 1 true ;;
  if negb (count =? 1) then ret (GENERIC_ERROR, data)
  else
    b <- Wire_read ;;
    ret (OK, u8 b).

(** The loop of the buffer read:
    [while (Wire.available()) { buffer[i] = Wire.read(); ++i; }].
    Every iteration takes one byte out of the receive buffer, so the number of
    bytes buffered when the loop is entered bounds the iterations:
    [pending] is what is left of that bound. *)
Fixpoint read_loop (pending i : nat) (buffer : list Z) : M (list Z) :=
  n <- Wire_available ;;
  if n =? 0 then ret buffer
  else
    match pending with
    | O => ret buffer
    | S pending' =>
        b <- Wire_read ;;
        read_loop pending' (S i) (store i (u8 b) buffer)
    end.

(** [MEMORYRESULT Mem24CSM01::read(uint32_t address, uint8_t *buffer, size_t bufferSize)];
    the array [buffer] points to is returned with the result.  The
    [Wire_available] before the loop only supplies the iteration bound of
    [read_loop]. *)
Definition read (address : Z) (buffer : list Z) (bufferSize : Z)
  : M (MEMORYRESULT * list Z) :=
  if address >? MAX_MEMORY_ADDRESS_VALUE then ret (ADDRESS_EXCEEDS_LIMIT, buffer)
  else if bufferSize >? 256 then ret (BUFFER_TOO_LARGE, buffer)
  else
    deviceAddress <- addressMemoryPointer address ;;
    _ <- Wire_endTransmission true ;;
    _ <- Wire_requestFrom deviceAddress bufferSize true ;;
    n <- Wire_available ;;
    buffer' <- read_loop (Z.to_nat n) 0 buffer ;;
    ret (OK, buffer').

(** [MEMORYRESULT Mem24CSM01::read(uint32_t address, uint8_t *data)] *)
Definition read_byte (address data : Z) : M (MEMORYRESULT * Z) :=
  r <- read address [data] 1 ;;
  ret (fst r, nth 0 (snd r) data).

(** [uint64_t Mem24CSM01::getManufacturerRegister()]; the three bytes are
    combined in a [uint32_t], which is then widened. *)
Definition getManufacturerRegister : M Z :=
  d <- this ;;
  Wire_beginTransmission FIRST_RESERVED_HOST_CODE ;;
  Wire_write (Z.shiftl (m_dev_address_memory_access d) 1) ;;
  _ <- Wire_endTransmission false ;;
  _ <- Wire_requestFrom (u8 SECOND_RESERVED_HOST_CODE) 3 true ;;
  r0 <- Wire_read ;;
  r1 <- Wire_read ;;
  r2 <- Wire_read ;;
  let byte0 := u8 r0 in
  let byte1 := u8 r1 in
  let byte2 := u8 r2 in
  let result :=
    u32 (Z.lor (Z.lor (u32 (Z.shiftl (u32 byte0) 16)) (u32 (Z.shiftl (u32 byte1) 8)))
           (u32 byte2)) in
  ret result.

End Driver.

(** ** Vocabulary of the statements *)

(** The values of a [uint8_t]. *)
Definition is_u8 (x : Z) : Prop := 0 <= x < 2 ^ 8.

Definition snapshot (w : world) : ConfigurationRegister := m_configuration (dev w).

Definition bus_trace (w : world) : list Wire.event := Wire.trace (wire w).

(** The completion status the transport reports for the transaction that
    ends the trace of [w]: right after an operation whose last bus call is
    [endTransmission], the value that call returned. *)
Definition last_status (T : Wire.transport) (w : world) : Z :=
  Wire.endStatus T (bus_trace w).

(** The bytes the transport hands over for the request that ends the trace
    of [w]. *)
Definition last_delivery (T : Wire.transport) (w : world) : list Z :=
  Wire.deliver T (bus_trace w).

(** A world after [evs] went over the bus, everything else untouched. *)
Definition sent (evs : list Wire.event) (w : world) : world :=
  mkWorld (dev w) (Wire.mkBus (bus_trace w ++ evs) (Wire.rx (wire w))).

(** A world whose snapshot went through [f], everything else untouched. *)
Definition with_snapshot (f : ConfigurationRegister -> ConfigurationRegister) (w : world)
  : world :=
  mkWorld (set_configuration (f (snapshot w)) (dev w)) (wire w).

(** The three bus addresses of two driver objects agree. *)
Definition same_addresses (d d' : Mem24CSM01) : Prop :=
  m_dev_address_memory_access d' = m_dev_address_memory_access d /\
  m_dev_address_configuration_reg d' = m_dev_address_configuration_reg d /\
  m_dev_address_security_register d' = m_dev_address_security_register d.

(** Transports and worlds to run the driver on. *)
Definition constant_transport (status : Z) (bytes : list Z) : Wire.transport :=
  Wire.mkTransport (fun _ => status) (fun _ => bytes).

Definition blank_storage : Mem24CSM01 :=
  mkMem24CSM01 0 0 0 (mkConfigurationRegister false false false 0).

Definition power_on (A1 A2 : bool) : world :=
  mkWorld (Mem24CSM01_pins A1 A2 blank_storage) (Wire.mkBus [] []).

(** ** Fixed-width arithmetic *)

Lemma u8_id (x : Z) : is_u8 x -> u8 x = x.
Proof. unfold is_u8, u8. intros H. apply Z.mod_small. exact H. Qed.

Lemma u8_is_u8 (x : Z) : is_u8 (u8 x).
Proof. unfold is_u8, u8. apply Z.mod_pos_bound. reflexivity. Qed.

Lemma mod_pow2_testbit (n x k : Z) :
  0 <= n -> Z.testbit (x mod 2 ^ n) k = (k <? n) && Z.testbit x k.
Proof.
  intros Hn. destruct (Z.ltb_spec k n) as [Hlt | Hge]; cbn [andb].
  - destruct (Z.ltb_spec k 0) as [Hneg | Hpos].
    + rewrite !Z.testbit_neg_r by assumption. reflexivity.
    + apply Z.mod_pow2_bits_low. lia.
  - apply Z.mod_pow2_bits_high. lia.
Qed.

Lemma u8_testbit (x k : Z) :
  Z.testbit (u8 x) k = (k <? 8) && Z.testbit x k.
Proof. unfold u8. apply mod_pow2_testbit. lia. Qed.

Lemma u32_testbit (x k : Z) :
  Z.testbit (u32 x) k = (k <? 32) && Z.testbit x k.
Proof. unfold u32. apply mod_pow2_testbit. lia. Qed.

Lemma land_0xFF (x : Z) : Z.land x 0xFF = x mod 2 ^ 8.
Proof. change 0xFF with (Z.ones 8). apply Z.land_ones. lia. Qed.

Lemma is_u8_high_bits (x k : Z) : is_u8 x -> 8 <= k -> Z.testbit x k = false.
Proof.
  intros Hx Hk. rewrite <- (u8_id x Hx), u8_testbit.
  destruct (Z.ltb_spec k 8); [lia | reflexivity].
Qed.

(** Masking with a single bit and converting to [bool] reads that bit. *)
Lemma z2b_land_bit (x n : Z) : 0 <= n -> z2b (Z.land x (Z.shiftl 1 n)) = Z.testbit x n.
Proof.
  intros Hn. unfold z2b. rewrite Z.shiftl_1_l.
  destruct (Z.testbit x n) eqn:Hbit.
  - destruct (Z.eqb_spec (Z.land x (2 ^ n)) 0) as [Hz | Hnz]; [| reflexivity].
    exfalso.
    assert (Hb : Z.testbit (Z.land x (2 ^ n)) n = true).
    { rewrite Z.land_spec, Hbit, Z.pow2_bits_true by assumption. reflexivity. }
    rewrite Hz, Z.bits_0 in Hb. discriminate.
  - replace (Z.land x (2 ^ n)) with 0; [reflexivity |].
    symmetry. apply Z.bits_inj'. intros m Hm.
    rewrite Z.land_spec, Z.bits_0, Z.pow2_bits_eqb by assumption.
    destruct (Z.eqb_spec n m) as [-> | _].
    + rewrite Hbit. reflexivity.
    + apply andb_false_r.
Qed.

(** ** Bus status mapping *)

(** C5. [processTransmissionResult] maps 0 to [OK], 2 to [ADDRESS_ERROR],
    3 to [DATA_ERROR], 5 to [TIMEOUT] and every other integer to
    [GENERIC_ERROR]; no other [MEMORYRESULT] comes out of it. *)
Theorem processTransmissionResult_mapping (r : Z) :
  ((r = 0 /\ processTransmissionResult r = OK) \/
   (r = 2 /\ processTransmissionResult r = ADDRESS_ERROR) \/
   (r = 3 /\ processTransmissionResult r = DATA_ERROR) \/
   (r = 5 /\ processTransmissionResult r = TIMEOUT) \/
   (r <> 0 /\ r <> 2 /\ r <> 3 /\ r <> 5 /\ processTransmissionResult r = GENERIC_ERROR))
  /\ In (processTransmissionResult r) [OK; ADDRESS_ERROR; DATA_ERROR; TIMEOUT; GENERIC_ERROR].
Proof.
  assert (Hcases : r = 0 \/ r = 2 \/ r = 3 \/ r = 5 \/
                   (r <> 0 /\ r <> 2 /\ r <> 3 /\ r <> 5)) by lia.
  destruct Hcases as [-> | [-> | [-> | [-> | Hother]]]].
  - split; [left; split; reflexivity | cbn; tauto].
  - split; [right; left; split; reflexivity | cbn; tauto].
  - split; [do 2 right; left; split; reflexivity | cbn; tauto].
  - split; [do 3 right; left; split; reflexivity | cbn; tauto].
  - assert (Hgen : processTransmissionResult r = GENERIC_ERROR).
    { destruct Hother as (H0 & H2 & H3 & H5).
      unfold processTransmissionResult.
      repeat match goal with
             | |- context [match ?x with _ => _ end] => destruct x
             end; try reflexivity; congruence. }
    split.
    + do 4 right. intuition.
    + rewrite Hgen. cbn. tauto.
Qed.

(** A status of the bus is never reported as one of the three validation
    results. *)
Lemma processTransmissionResult_not_validation (r : Z) :
  processTransmissionResult r <> ADDRESS_EXCEEDS_LIMIT /\
  processTransmissionResult r <> BUFFER_TOO_LARGE /\
  processTransmissionResult r <> NOT_ON_SINGLE_PAGE.
Proof.
  unfold processTransmissionResult.
  repeat match goal with
         | |- context [match ?x with _ => _ end] => destruct x
         end; repeat split; discriminate.
Qed.

(** ** Bus addresses *)

(** C2. With both pins low the two-pin constructor yields 0b1010000 for
    memory access and 0b1011000 for the configuration register. With both
    pins high it yields 0b1011100 for both of them, not 0b1010110 and
    0b1011110: the pins are placed at bits 3 and 2 of a 7-bit address. *)
Theorem Mem24CSM01_pins_addresses (raw : Mem24CSM01) :
  (m_dev_address_memory_access (Mem24CSM01_pins false false raw) = bin [1;0;1;0;0;0;0] /\
   m_dev_address_configuration_reg (Mem24CSM01_pins false false raw) = bin [1;0;1;1;0;0;0])
  /\
  (m_dev_address_memory_access (Mem24CSM01_pins true true raw) = bin [1;0;1;1;1;0;0] /\
   m_dev_address_configuration_reg (Mem24CSM01_pins true true raw) = bin [1;0;1;1;1;0;0] /\
   m_dev_address_memory_access (Mem24CSM01_pins true true raw) <> bin [1;0;1;0;1;1;0] /\
   m_dev_address_configuration_reg (Mem24CSM01_pins true true raw) <> bin [1;0;1;1;1;1;0]).
Proof.
  repeat split; try reflexivity; cbn; discriminate.
Qed.

(** ** Traces *)

Lemma sent_nil (w : world) : sent [] w = w.
Proof.
  destruct w as [d [tr rx]]. unfold sent, bus_trace. cbn.
  rewrite app_nil_r. reflexivity.
Qed.

Lemma sent_sent (e1 e2 : list Wire.event) (w : world) :
  sent e2 (sent e1 w) = sent (e1 ++ e2) w.
Proof. unfold sent, bus_trace. cbn. rewrite app_assoc. reflexivity. Qed.

Lemma emit_sent (e : Wire.event) (w : world) : emit e w = (tt, sent [e] w).
Proof. reflexivity. Qed.

Lemma bus_trace_sent (evs : list Wire.event) (w : world) :
  bus_trace (sent evs w) = bus_trace w ++ evs.
Proof. reflexivity. Qed.

Lemma snapshot_sent (evs : list Wire.event) (w : world) :
  snapshot (sent evs w) = snapshot w.
Proof. reflexivity. Qed.

(** The data loop of [write] puts [count] bytes on the bus, in index order,
    and does nothing else. *)
Lemma write_loop_sent (dataArray : list Z) (count i : nat) (w : world) :
  write_loop count i dataArray w =
  (tt, sent (map (fun k => Wire.Write (u8 (nth k dataArray 0))) (seq i count)) w).
Proof.
  revert i w. induction count as [| count IH]; intros i w.
  - cbn. rewrite sent_nil. reflexivity.
  - cbn [write_loop seq map]. unfold bind at 1. unfold Wire_write at 1.
    rewrite emit_sent, IH, sent_sent. reflexivity.
Qed.

(** ** Page writes *)

(** What [write] does once its three checks let the request through: one
    transaction carrying the two word-address bytes and the data, and the
    mapped completion status as the result. *)
Lemma write_accepted (T : Wire.transport) (address arraySize : Z) (dataArray : list Z)
      (w : world) :
  address <= MAX_MEMORY_ADDRESS_VALUE ->
  arraySize <= MAX_MEMORY_PAGE_SIZE ->
  u32 (address + arraySize - 1) <= 0xFF ->
  let packet := fst (configureAddressPacket address w) in
  let w' :=
    sent ([Wire.BeginTransmission (deviceMemoryAddress packet);
           Wire.Write (u8 (memoryMSB packet)); Wire.Write (u8 (memoryLSB packet))]
          ++ map (fun k => Wire.Write (u8 (nth k dataArray 0))) (seq 0 (Z.to_nat arraySize))
          ++ [Wire.EndTransmission true]) w in
  write T address dataArray arraySize w = (processTransmissionResult (last_status T w'), w').
Proof.
  intros Haddr Hsize Hpage packet w'. unfold write.
  rewrite !Z.gtb_ltb.
  destruct (Z.ltb_spec MAX_MEMORY_ADDRESS_VALUE address) as [Hbad | _]; [lia |].
  destruct (Z.ltb_spec MAX_MEMORY_PAGE_SIZE arraySize) as [Hbad | _]; [lia |].
  destruct (Z.ltb_spec 0xFF (u32 (address + arraySize - 1))) as [Hbad | _]; [lia |].
  unfold bind, configureAddressPacket, this, ret, Wire_beginTransmission, Wire_write,
    Wire_endTransmission, bind.
  rewrite !emit_sent, write_loop_sent, !emit_sent, !sent_sent.
  reflexivity.
Qed.

(** The page check of [write] compares the whole address with 0xFF, not its
    low byte: among the requests that pass the first two checks, exactly those
    that end within the first 256 bytes of the memory are let through. *)
Lemma write_page_check (T : Wire.transport) (address arraySize : Z) (dataArray : list Z)
      (w : world) :
  0 <= address <= MAX_MEMORY_ADDRESS_VALUE ->
  1 <= arraySize <= MAX_MEMORY_PAGE_SIZE ->
  fst (write T address dataArray arraySize w) = NOT_ON_SINGLE_PAGE <->
  address + arraySize > 256.
Proof.
  intros Haddr Hsize.
  assert (Hu32 : u32 (address + arraySize - 1) = address + arraySize - 1).
  { unfold u32. apply Z.mod_small.
    unfold MAX_MEMORY_ADDRESS_VALUE, MAX_MEMORY_PAGE_SIZE in *. lia. }
  destruct (Z_le_gt_dec (address + arraySize) 256) as [Hfit | Hcross].
  - rewrite write_accepted by (rewrite ?Hu32; lia). cbn [fst].
    split; [| lia]. intros Hres.
    destruct (processTransmissionResult_not_validation
                (last_status T
                   (sent ([Wire.BeginTransmission
                             (deviceMemoryAddress (fst (configureAddressPacket address w)));
                           Wire.Write (u8 (memoryMSB (fst (configureAddressPacket address w))));
                           Wire.Write (u8 (memoryLSB (fst (configureAddressPacket address w))))]
                          ++ map (fun k => Wire.Write (u8 (nth k dataArray 0)))
                               (seq 0 (Z.to_nat arraySize))
                          ++ [Wire.EndTransmission true]) w)))
      as (_ & _ & Hnot).
    contradiction.
  - split; [intros _; exact Hcross | intros _].
    unfold write. rewrite !Z.gtb_ltb, Hu32.
    destruct (Z.ltb_spec MAX_MEMORY_ADDRESS_VALUE address) as [Hbad | _]; [lia |].
    destruct (Z.ltb_spec MAX_MEMORY_PAGE_SIZE arraySize) as [Hbad | _]; [lia |].
    destruct (Z.ltb_spec 0xFF (address + arraySize - 1)) as [_ | Hbad]; [reflexivity | lia].
Qed.

(** C1. A one-byte write at address 0x100 stays within one 256-byte page
    ((0x100 mod 256) + 1 is not above 256) and passes the checks on address
    and size, yet [write] returns [NOT_ON_SINGLE_PAGE] and leaves the bus
    alone. *)
Theorem write_second_page_rejected (T : Wire.transport) (w : world) (b : Z) :
  (0x100 <= MAX_MEMORY_ADDRESS_VALUE /\ 1 <= 1 <= MAX_MEMORY_PAGE_SIZE /\
   ~ (0x100 mod 256 + 1 > 256))
  /\ write T 0x100 [b] 1 w = (NOT_ON_SINGLE_PAGE, w).
Proof.
  split.
  - unfold MAX_MEMORY_ADDRESS_VALUE, MAX_MEMORY_PAGE_SIZE. cbn. lia.
  - reflexivity.
Qed.

(** C10. A write of zero bytes is not rejected for its size. At address 0
    the page check computes 0 + 0 - 1, which wraps to the largest 32-bit
    value, and the call returns [NOT_ON_SINGLE_PAGE] without touching the bus;
    at every address from 1 to 0x100 the three checks pass and one
    transaction with the two word-address bytes and no data byte is issued,
    its completion status mapped into the result. *)
Theorem write_zero_bytes (T : Wire.transport) (w : world) (dataArray : list Z) (address : Z) :
  is_u8 (m_dev_address_memory_access (dev w)) ->
  1 <= address <= 0x100 ->
  (u32 (0 + 0 - 1) = 2 ^ 32 - 1 /\
   write T 0 dataArray 0 w = (NOT_ON_SINGLE_PAGE, w))
  /\
  (let w' :=
     sent [Wire.BeginTransmission (m_dev_address_memory_access (dev w));
           Wire.Write (address / 256); Wire.Write (address mod 256);
           Wire.EndTransmission true] w in
   write T address dataArray 0 w = (processTransmissionResult (last_status T w'), w')).
Proof.
  intros Hmem Haddr. split; [split; reflexivity |].
  assert (Hu32 : u32 (address + 0 - 1) = address - 1).
  { unfold u32. rewrite Z.add_0_r. apply Z.mod_small. lia. }
  rewrite write_accepted
    by (unfold MAX_MEMORY_ADDRESS_VALUE, MAX_MEMORY_PAGE_SIZE; rewrite ?Hu32; lia).
  cbn [Z.to_nat seq map app fst configureAddressPacket].
  unfold configureAddressPacket, bind, this, ret.
  cbn [fst deviceMemoryAddress memoryMSB memoryLSB].
  assert (Hhigh : Z.shiftr address 17 = 0).
  { rewrite Z.shiftr_div_pow2 by lia. apply Z.div_small. lia. }
  assert (Hmsb : Z.shiftr address 8 = address / 256).
  { rewrite Z.shiftr_div_pow2 by lia. reflexivity. }
  assert (Hmsb_small : 0 <= address / 256 < 2 ^ 8).
  { split; [apply Z.div_pos; lia |].
    apply Z.div_lt_upper_bound; lia. }
  rewrite Hhigh, Hmsb, !land_0xFF.
  change (u8 (Z.land 0 1)) with 0. change (Z.shiftl 0 1) with 0.
  rewrite Z.lor_0_r, (u8_id _ Hmem).
  fold (u8 (address / 256)). fold (u8 address).
  rewrite !(u8_id (address / 256)) by exact Hmsb_small.
  assert (Hidem : u8 (u8 address) = u8 address) by (apply u8_id, u8_is_u8).
  rewrite !Hidem. reflexivity.
Qed.

(** ** Writing the configuration register *)

(** [updateConfigRegister] reports failure exactly on a non-zero completion
    status and never touches the driver object. *)
Lemma updateConfigRegister_result (T : Wire.transport) (confirmLock : Z) (w : world) :
  fst (updateConfigRegister T confirmLock w) =
  (last_status T (snd (updateConfigRegister T confirmLock w)) =? 0).
Proof.
  unfold updateConfigRegister, bind, this, Wire_beginTransmission, Wire_write,
    Wire_endTransmission, bind, emit, ret, last_status, bus_trace.
  cbn [fst snd dev wire Wire.trace Wire.rx].
  match goal with
  | |- context [negb (?s =? 0)] => destruct (s =? 0) eqn:Hstatus
  end; cbn [negb fst snd dev wire Wire.trace]; rewrite Hstatus; reflexivity.
Qed.

Lemma updateConfigRegister_dev (T : Wire.transport) (confirmLock : Z) (w : world) :
  dev (snd (updateConfigRegister T confirmLock w)) = dev w.
Proof.
  unfold updateConfigRegister, bind, this, Wire_beginTransmission, Wire_write,
    Wire_endTransmission, bind, emit, ret.
  cbn [fst snd dev wire Wire.trace Wire.rx].
  match goal with
  | |- context [negb (?s =? 0)] => destruct (s =? 0)
  end; reflexivity.
Qed.

(** C3. [updateConfigRegister confirmLock] puts one transaction on the bus:
    the two configuration word-address bytes, then the high byte
    (isSoftwareWriteProtect << 1) | isConfigLocked and the low byte
    zoneProtection, both taken from the snapshot as it is, then
    [confirmLock]. It changes nothing else, and it returns false exactly
    when the completion status of that transaction is not zero. *)
Theorem updateConfigRegister_frame (T : Wire.transport) (w : world) (confirmLock : Z) :
  is_u8 (zoneProtection (snapshot w)) ->
  is_u8 confirmLock ->
  let w' :=
    sent [Wire.BeginTransmission (m_dev_address_configuration_reg (dev w));
          Wire.Write CFGREG_WRD_ADDRH;
          Wire.Write CFGREG_WRD_ADDRL;
          Wire.Write (Z.lor (Z.shiftl (b2z (isSoftwareWriteProtect (snapshot w))) 1)
                        (b2z (isConfigLocked (snapshot w))));
          Wire.Write (zoneProtection (snapshot w));
          Wire.Write confirmLock;
          Wire.EndTransmission true] w in
  snd (updateConfigRegister T confirmLock w) = w' /\
  (fst (updateConfigRegister T confirmLock w) = false <-> last_status T w' <> 0).
Proof.
  intros Hzone Hconfirm w'.
  assert (Hsnd : snd (updateConfigRegister T confirmLock w) = w').
  { unfold updateConfigRegister, bind, this, Wire_beginTransmission, Wire_write,
      Wire_endTransmission, bind, ret.
    rewrite !emit_sent, !sent_sent. cbn [app].
    match goal with
    | |- context [negb (?s =? 0)] => destruct (s =? 0)
    end; cbn [negb snd]; subst w'; unfold snapshot in *;
      rewrite (u8_id _ Hzone), (u8_id _ Hconfirm);
      destruct (isSoftwareWriteProtect (m_configuration (dev w))),
        (isConfigLocked (m_configuration (dev w))); reflexivity. }
  split; [exact Hsnd |].
  rewrite updateConfigRegister_result, Hsnd.
  destruct (Z.eqb_spec (last_status T w') 0) as [Hz | Hnz].
  - split; [discriminate | intros Hne; contradiction].
  - split; [intros _; exact Hnz | reflexivity].
Qed.

(** ** Zone bits *)

Lemma u32_bit (zone : Z) : 0 <= zone <= 7 -> u32 (Z.shiftl 1 zone) = 2 ^ zone.
Proof.
  intros Hzone. rewrite Z.shiftl_1_l. unfold u32. apply Z.mod_small.
  split; [apply Z.pow_nonneg; lia | apply Z.pow_lt_mono_r; lia].
Qed.

(** [bitSet] on a byte sets the chosen bit and keeps the others. *)
Lemma bitSet_testbit (value zone k : Z) :
  is_u8 value -> 0 <= zone <= 7 ->
  Z.testbit (bitSet value zone) k = if k =? zone then true else Z.testbit value k.
Proof.
  intros Hvalue Hzone. unfold bitSet.
  rewrite u32_bit, u8_testbit, Z.lor_spec by assumption.
  destruct (Z.eqb_spec k zone) as [-> | Hne].
  - rewrite Z.pow2_bits_true, orb_true_r by lia.
    destruct (Z.ltb_spec zone 8); [reflexivity | lia].
  - destruct (Z.ltb_spec k 0) as [Hneg | Hpos].
    + rewrite !Z.testbit_neg_r by assumption. apply andb_false_r.
    + rewrite Z.pow2_bits_false, orb_false_r by lia.
      destruct (Z.ltb_spec k 8) as [_ | Hhigh]; [reflexivity |].
      rewrite is_u8_high_bits by assumption. reflexivity.
Qed.

(** [bitClear] on a byte clears the chosen bit and keeps the others. *)
Lemma bitClear_testbit (value zone k : Z) :
  is_u8 value -> 0 <= zone <= 7 ->
  Z.testbit (bitClear value zone) k = if k =? zone then false else Z.testbit value k.
Proof.
  intros Hvalue Hzone. unfold bitClear.
  rewrite u32_bit, u8_testbit, Z.land_spec, u32_testbit by assumption.
  destruct (Z.ltb_spec k 0) as [Hneg | Hpos].
  - rewrite !Z.testbit_neg_r by assumption.
    destruct (k =? zone), (k <? 8); reflexivity.
  - rewrite Z.lnot_spec by assumption.
    destruct (Z.eqb_spec k zone) as [-> | Hne].
    + rewrite Z.pow2_bits_true by lia. cbn [negb].
      rewrite !andb_false_r. reflexivity.
    + rewrite Z.pow2_bits_false by lia. cbn [negb]. rewrite andb_true_r.
      destruct (Z.ltb_spec k 8) as [Hlow | Hhigh].
      * destruct (Z.ltb_spec k 32); [| lia].
        cbn [andb]. apply andb_true_r.
      * rewrite is_u8_high_bits by assumption. reflexivity.
Qed.

(** Both zone operations end in the value of the configuration write they
    delegate to. *)
Lemma setWriteProtectionZone_delegates (T : Wire.transport) (w : world) (zone : Z) :
  0 <= zone <= 7 ->
  setWriteProtectionZone T zone w =
  updateConfigRegister T REGISTER_UNLOCKED
    (with_snapshot (set_zoneProtection (bitSet (zoneProtection (snapshot w)) zone)) w).
Proof.
  intros Hzone. unfold setWriteProtectionZone.
  destruct (Z.geb_spec zone 0) as [_ | Hbad]; [| lia].
  destruct (Z.leb_spec zone 7) as [_ | Hbad]; [| lia].
  cbn [andb]. unfold bind at 1 2 3 4. unfold this, modify_configuration.
  cbn [dev wire m_configuration set_configuration set_zoneProtection zoneProtection
       isErrorCorrectionOccured isSoftwareWriteProtect isConfigLocked
       m_dev_address_memory_access m_dev_address_configuration_reg
       m_dev_address_security_register].
  change confirmLock_default with REGISTER_UNLOCKED.
  unfold with_snapshot, snapshot, set_configuration, set_zoneProtection.
  destruct (updateConfigRegister T REGISTER_UNLOCKED _) as [[|] w']; reflexivity.
Qed.

Lemma removeWriteProtectionZone_delegates (T : Wire.transport) (w : world) (zone : Z) :
  0 <= zone <= 7 ->
  removeWriteProtectionZone T zone w =
  updateConfigRegister T REGISTER_UNLOCKED
    (with_snapshot (set_zoneProtection (bitClear (zoneProtection (snapshot w)) zone)) w).
Proof.
  intros Hzone. unfold removeWriteProtectionZone.
  destruct (Z.geb_spec zone 0) as [_ | Hbad]; [| lia].
  destruct (Z.leb_spec zone 7) as [_ | Hbad]; [| lia].
  cbn [andb]. unfold bind at 1 2 3 4. unfold this, modify_configuration.
  cbn [dev wire m_configuration set_configuration set_zoneProtection zoneProtection
       isErrorCorrectionOccured isSoftwareWriteProtect isConfigLocked
       m_dev_address_memory_access m_dev_address_configuration_reg
       m_dev_address_security_register].
  change confirmLock_default with REGISTER_UNLOCKED.
  unfold with_snapshot, snapshot, set_configuration, set_zoneProtection.
  destruct (updateConfigRegister T REGISTER_UNLOCKED _) as [[|] w']; reflexivity.
Qed.

Lemma writeProtection_delegates (T : Wire.transport) (w : world) (zones : Z) :
  writeProtection T zones w =
  updateConfigRegister T REGISTER_UNLOCKED (with_snapshot (set_zoneProtection (u8 zones)) w).
Proof. reflexivity. Qed.

Lemma enableSoftwareWriteProtect_delegates (T : Wire.transport) (w : world) :
  enableSoftwareWriteProtect T w =
  updateConfigRegister T REGISTER_UNLOCKED (with_snapshot (set_isSoftwareWriteProtect true) w).
Proof. reflexivity. Qed.

Lemma disableSoftwareWriteProtect_delegates (T : Wire.transport) (w : world) :
  disableSoftwareWriteProtect T w =
  updateConfigRegister T REGISTER_UNLOCKED (with_snapshot (set_isSoftwareWriteProtect false) w).
Proof. reflexivity. Qed.

(** The snapshot a configuration write leaves behind is the one it was
    started with. *)
Lemma updateConfigRegister_snapshot (T : Wire.transport) (confirmLock : Z) (w : world) :
  snapshot (snd (updateConfigRegister T confirmLock w)) = snapshot w.
Proof. unfold snapshot. rewrite updateConfigRegister_dev. reflexivity. Qed.

Lemma updateConfigRegister_fails (T : Wire.transport) (confirmLock : Z) (w : world) :
  last_status T (snd (updateConfigRegister T confirmLock w)) <> 0 ->
  fst (updateConfigRegister T confirmLock w) = false.
Proof.
  intros Hfail. rewrite updateConfigRegister_result.
  apply Z.eqb_neq. exact Hfail.
Qed.

(** C8. A zone outside 0..7 makes [setWriteProtectionZone] and
    [removeWriteProtectionZone] return false with the bus and the snapshot
    as they were. For a zone in 0..7 the first sets exactly bit [zone] of
    zoneProtection, the second clears exactly that bit, no other field of
    the snapshot changes, and the call is the configuration write with the
    unlocked confirm byte on the changed snapshot. *)
Theorem write_protection_zone_spec (T : Wire.transport) (w : world) (zone : Z) :
  is_u8 (zoneProtection (snapshot w)) ->
  (~ 0 <= zone <= 7 ->
   setWriteProtectionZone T zone w = (false, w) /\
   removeWriteProtectionZone T zone w = (false, w))
  /\
  (0 <= zone <= 7 ->
   (let zs := zoneProtection (snapshot (snd (setWriteProtectionZone T zone w))) in
    (forall k, Z.testbit zs k = if k =? zone then true else Z.testbit (zoneProtection (snapshot w)) k) /\
    snapshot (snd (setWriteProtectionZone T zone w)) = set_zoneProtection zs (snapshot w) /\
    setWriteProtectionZone T zone w =
    updateConfigRegister T REGISTER_UNLOCKED (with_snapshot (set_zoneProtection zs) w))
   /\
   (let zc := zoneProtection (snapshot (snd (removeWriteProtectionZone T zone w))) in
    (forall k, Z.testbit zc k = if k =? zone then false else Z.testbit (zoneProtection (snapshot w)) k) /\
    snapshot (snd (removeWriteProtectionZone T zone w)) = set_zoneProtection zc (snapshot w) /\
    removeWriteProtectionZone T zone w =
    updateConfigRegister T REGISTER_UNLOCKED (with_snapshot (set_zoneProtection zc) w))).
Proof.
  intros Hbyte. split.
  - intros Hout. unfold setWriteProtectionZone, removeWriteProtectionZone.
    destruct (Z.geb_spec zone 0) as [Hlow | _]; [| split; reflexivity].
    destruct (Z.leb_spec zone 7) as [Hhigh | _]; [lia | split; reflexivity].
  - intros Hzone. split.
    + rewrite setWriteProtectionZone_delegates by assumption.
      rewrite updateConfigRegister_snapshot. cbn zeta.
      change (zoneProtection (snapshot (with_snapshot _ w)))
        with (bitSet (zoneProtection (snapshot w)) zone).
      repeat split.
      intros k. apply bitSet_testbit; assumption.
    + rewrite removeWriteProtectionZone_delegates by assumption.
      rewrite updateConfigRegister_snapshot. cbn zeta.
      change (zoneProtection (snapshot (with_snapshot _ w)))
        with (bitClear (zoneProtection (snapshot w)) zone).
      repeat split.
      intros k. apply bitClear_testbit; assumption.
Qed.

(** C9. No configuration-mutating operation undoes its change of the
    snapshot when the bus write fails. Whenever the transaction of the
    operation completes with a non-zero status the operation returns false,
    and the snapshot it leaves has bit [zone] set
    ([setWriteProtectionZone]), bit [zone] cleared
    ([removeWriteProtectionZone]), the new mask ([writeProtection]), or the
    new write-protect mode ([enableSoftwareWriteProtect],
    [disableSoftwareWriteProtect]). *)
Theorem config_mutation_not_rolled_back (T : Wire.transport) (w : world) (zone zones : Z) :
  0 <= zone <= 7 ->
  (last_status T (snd (setWriteProtectionZone T zone w)) <> 0 ->
   fst (setWriteProtectionZone T zone w) = false /\
   Z.testbit (zoneProtection (snapshot (snd (setWriteProtectionZone T zone w)))) zone = true)
  /\
  (last_status T (snd (removeWriteProtectionZone T zone w)) <> 0 ->
   fst (removeWriteProtectionZone T zone w) = false /\
   Z.testbit (zoneProtection (snapshot (snd (removeWriteProtectionZone T zone w)))) zone = false)
  /\
  (last_status T (snd (writeProtection T zones w)) <> 0 ->
   fst (writeProtection T zones w) = false /\
   zoneProtection (snapshot (snd (writeProtection T zones w))) = u8 zones)
  /\
  (last_status T (snd (enableSoftwareWriteProtect T w)) <> 0 ->
   fst (enableSoftwareWriteProtect T w) = false /\
   isSoftwareWriteProtect (snapshot (snd (enableSoftwareWriteProtect T w))) = true)
  /\
  (last_status T (snd (disableSoftwareWriteProtect T w)) <> 0 ->
   fst (disableSoftwareWriteProtect T w) = false /\
   isSoftwareWriteProtect (snapshot (snd (disableSoftwareWriteProtect T w))) = false).
Proof.
  intros Hzone.
  rewrite setWriteProtectionZone_delegates, removeWriteProtectionZone_delegates
    by assumption.
  rewrite writeProtection_delegates, enableSoftwareWriteProtect_delegates,
    disableSoftwareWriteProtect_delegates.
  rewrite !updateConfigRegister_snapshot.
  repeat split; try (apply updateConfigRegister_fails; assumption).
  - change (Z.testbit (bitSet (zoneProtection (snapshot w)) zone) zone = true).
    unfold bitSet. rewrite u32_bit, u8_testbit, Z.lor_spec by assumption.
    rewrite Z.pow2_bits_true, orb_true_r by lia.
    destruct (Z.ltb_spec zone 8); [reflexivity | lia].
  - change (Z.testbit (bitClear (zoneProtection (snapshot w)) zone) zone = false).
    unfold bitClear. rewrite u32_bit, u8_testbit, Z.land_spec, u32_testbit by assumption.
    rewrite Z.lnot_spec, Z.pow2_bits_true by lia.
    cbn [negb]. rewrite !andb_false_r. reflexivity.
Qed.

Lemma u16_byte_pair (high low : Z) :
  is_u8 high -> is_u8 low -> u16 (Z.lor (Z.shiftl high 8) low) = Z.lor (Z.shiftl high 8) low.
Proof.
  intros Hhigh Hlow. unfold u16. apply Z.bits_inj'. intros k Hk.
  rewrite mod_pow2_testbit by lia.
  destruct (Z.ltb_spec k 16) as [_ | Hbig]; [reflexivity |].
  rewrite Z.lor_spec, Z.shiftl_spec by assumption.
  rewrite (is_u8_high_bits high), (is_u8_high_bits low) by (assumption || lia).
  reflexivity.
Qed.

(** ** Reading the configuration register *)

(** C4. For every pair of bytes (high, low) the bus delivers in answer to
    the two-byte request, [getConfiguration] returns (high << 8) | low and
    replaces the snapshot, whatever it was: zoneProtection is low,
    isConfigLocked is bit 8, isSoftwareWriteProtect bit 9 and
    isErrorCorrectionOccured bit 15 of the result. *)
Theorem getConfiguration_decodes (T : Wire.transport) (w : world) (high low : Z)
        (rest : list Z) :
  is_u8 high ->
  is_u8 low ->
  last_delivery T
    (sent [Wire.BeginTransmission (m_dev_address_configuration_reg (dev w));
           Wire.Write CFGREG_WRD_ADDRH;
           Wire.Write CFGREG_WRD_ADDRL;
           Wire.EndTransmission false;
           Wire.RequestFrom (m_dev_address_configuration_reg (dev w)) 2 true] w)
  = high :: low :: rest ->
  let result := fst (getConfiguration T w) in
  result = Z.lor (Z.shiftl high 8) low /\
  snapshot (snd (getConfiguration T w)) =
  mkConfigurationRegister (Z.testbit result 15) (Z.testbit result 9) (Z.testbit result 8) low.
Proof.
  intros Hhigh Hlow Hbus.
  unfold last_delivery, sent, bus_trace in Hbus. cbn [wire Wire.trace] in Hbus.
  unfold getConfiguration, bind, this, Wire_beginTransmission, Wire_write,
    Wire_endTransmission, Wire_requestFrom, bind, emit, Wire_read, modify_configuration, ret.
  cbn [fst snd dev wire Wire.trace Wire.rx].
  change (u8 CFGREG_WRD_ADDRH) with CFGREG_WRD_ADDRH.
  change (u8 CFGREG_WRD_ADDRL) with CFGREG_WRD_ADDRL.
  rewrite <- !app_assoc. cbn [app].
  rewrite Hbus.
  cbn [fst snd dev wire Wire.trace Wire.rx].
  rewrite (u8_id _ Hhigh), (u8_id _ Hlow), (u16_byte_pair _ _ Hhigh Hlow).
  split; [reflexivity |].
  unfold snapshot, set_configuration, set_zoneProtection, set_isConfigLocked,
    set_isSoftwareWriteProtect, set_isErrorCorrectionOccured.
  cbn [dev m_configuration isErrorCorrectionOccured isSoftwareWriteProtect isConfigLocked
       zoneProtection].
  unfold ECS_MASK, EWPM_MASK, LOCK_MASK.
  rewrite !z2b_land_bit by lia. reflexivity.
Qed.

(** ** Reading memory *)

(** The loop of the buffer read leaves the receive buffer empty when it is
    given a bound that covers the buffered bytes: it ends because
    [Wire.available()] reached 0. *)
Lemma read_loop_drains (pending : nat) :
  forall (i : nat) (buffer : list Z) (w : world),
    (length (Wire.rx (wire w)) <= pending)%nat ->
    Wire.rx (wire (snd (read_loop pending i buffer w))) = [].
Proof.
  induction pending as [| pending IH]; intros i buffer w Hlen.
  - destruct w as [d [tr rx]]. cbn in Hlen.
    destruct rx as [| b rx]; [reflexivity | cbn in Hlen; lia].
  - destruct w as [d [tr rx]]. cbn in Hlen.
    destruct rx as [| b rx]; [reflexivity |].
    cbn [read_loop]. unfold bind at 1. unfold Wire_available.
    cbn [wire Wire.rx length].
    destruct (Z.eqb_spec (Z.of_nat (S (length rx))) 0) as [Hzero | _]; [lia |].
    unfold bind at 1. unfold Wire_read. cbn [wire Wire.rx dev Wire.trace].
    apply IH. cbn. cbn in Hlen. lia.
Qed.

(** C6. The two read paths treat a short delivery differently. The
    current-address read returns [GENERIC_ERROR] whenever the transport
    reports a byte count other than 1 and [OK] when it reports 1. The
    buffer read returns [OK] for every address up to 0x1FFFF and every
    size up to 256, whatever the transport delivers; its copy loop ends
    with the receive buffer empty. *)
Theorem read_underrun_asymmetry (T : Wire.transport) (w : world) (data address bufferSize : Z)
        (buffer : list Z) :
  address <= MAX_MEMORY_ADDRESS_VALUE ->
  bufferSize <= 256 ->
  (let count :=
     Z.of_nat (length (last_delivery T
       (sent [Wire.BeginTransmission (m_dev_address_memory_access (dev w));
              Wire.EndTransmission true;
              Wire.RequestFrom (m_dev_address_memory_access (dev w)) 1 true] w))) in
   (count <> 1 -> fst (fst (read_current T data w)) = GENERIC_ERROR) /\
   (count = 1 -> fst (fst (read_current T data w)) = OK))
  /\
  (fst (fst (read T address buffer bufferSize w)) = OK /\
   Wire.rx (wire (snd (read T address buffer bufferSize w))) = []).
Proof.
  intros Haddr Hsize. split.
  - unfold last_delivery, sent, bus_trace. cbn [wire Wire.trace].
    unfold read_current, bind, this, Wire_beginTransmission, Wire_endTransmission,
      Wire_requestFrom, bind, emit, Wire_read.
    cbn [fst snd dev wire Wire.trace Wire.rx].
    rewrite <- !app_assoc. cbn [app].
    match goal with
    | |- context [Wire.deliver T ?tr] => destruct (Wire.deliver T tr) as [| b bytes]
    end.
    + cbn. split; [reflexivity | discriminate].
    + match goal with
      | |- context [negb (?c =? 1)] => destruct (Z.eqb_spec c 1) as [Hone | Hmany]
      end; cbn [negb]; (split; [intros Hne | intros Heq]); try reflexivity; try contradiction.
  - assert (Hrun : exists buffer' w',
               read T address buffer bufferSize w = ((OK, buffer'), w') /\
               Wire.rx (wire w') = []).
    { unfold read. rewrite !Z.gtb_ltb.
      destruct (Z.ltb_spec MAX_MEMORY_ADDRESS_VALUE address) as [Hbad | _]; [lia |].
      destruct (Z.ltb_spec 256 bufferSize) as [Hbad | _]; [lia |].
      unfold bind at 1 2 3 4 5.
      destruct (addressMemoryPointer address w) as [deviceAddress w1].
      destruct (Wire_endTransmission T true w1) as [status w2].
      destruct (Wire_requestFrom T deviceAddress bufferSize true w2) as [count w3].
      unfold Wire_available at 1.
      pose proof (read_loop_drains (Z.to_nat (Z.of_nat (length (Wire.rx (wire w3)))))
                    0 buffer w3) as Hdrain.
      destruct (read_loop (Z.to_nat (Z.of_nat (length (Wire.rx (wire w3))))) 0 buffer w3)
        as [buffer' w4].
      exists buffer', w4. split; [reflexivity |].
      apply Hdrain. rewrite Nat2Z.id. apply le_n. }
    destruct Hrun as (buffer' & w' & Hread & Hempty).
    rewrite Hread. split; [reflexivity | exact Hempty].
Qed.

(** ** Reading the serial number *)

Lemma store_at_length (pre post : list Z) (old v : Z) :
  store (length pre) v (pre ++ old :: post) = pre ++ v :: post.
Proof.
  induction pre as [| p pre IH]; cbn [length app store]; [reflexivity |].
  rewrite IH. reflexivity.
Qed.

Lemma getSerialNumber_loop_step (count nBytes : nat) (data : list Z) (w : world) :
  getSerialNumber_loop (S count) nBytes data w =
  getSerialNumber_loop count (S nBytes) (store nBytes (u8 (fst (Wire_read w))) data)
    (snd (Wire_read w)).
Proof.
  cbn [getSerialNumber_loop]. unfold bind.
  destruct (Wire_read w) as [b w']. reflexivity.
Qed.

(** The copy loop of [getSerialNumber] only consumes the receive buffer. *)
Lemma getSerialNumber_loop_bus (count : nat) :
  forall (nBytes : nat) (data : list Z) (w : world),
    dev (snd (getSerialNumber_loop count nBytes data w)) = dev w /\
    bus_trace (snd (getSerialNumber_loop count nBytes data w)) = bus_trace w.
Proof.
  induction count as [| count IH]; intros nBytes data w; [split; reflexivity |].
  rewrite getSerialNumber_loop_step.
  destruct (IH (S nBytes) (store nBytes (u8 (fst (Wire_read w))) data) (snd (Wire_read w)))
    as [Hdev Htrace].
  rewrite Hdev, Htrace. unfold Wire_read, bus_trace.
  destruct (Wire.rx (wire w)); split; reflexivity.
Qed.

(** With enough bytes buffered and enough room in the array, the loop stores
    the first [count] buffered bytes, in the order they came, at consecutive
    indices. *)
Lemma getSerialNumber_loop_copies (count : nat) :
  forall (pre post : list Z) (w : world),
    (count <= length post)%nat ->
    (count <= length (Wire.rx (wire w)))%nat ->
    fst (getSerialNumber_loop count (length pre) (pre ++ post) w) =
    pre ++ map u8 (firstn count (Wire.rx (wire w))) ++ skipn count post.
Proof.
  induction count as [| count IH]; intros pre post w Hroom Hbytes; [reflexivity |].
  destruct post as [| old post]; [cbn in Hroom; lia |].
  rewrite getSerialNumber_loop_step. unfold Wire_read.
  destruct (Wire.rx (wire w)) as [| b rest] eqn:Hrx; [cbn in Hbytes; lia |].
  cbn [fst snd]. rewrite store_at_length.
  replace (pre ++ u8 b :: post) with ((pre ++ [u8 b]) ++ post)
    by (rewrite <- app_assoc; reflexivity).
  replace (S (length pre)) with (length (pre ++ [u8 b]))
    by (rewrite length_app; cbn; lia).
  rewrite IH by (cbn in *; lia).
  cbn [wire Wire.rx firstn map skipn app]. rewrite <- app_assoc. reflexivity.
Qed.

Lemma map_u8_bytes (bytes : list Z) : Forall is_u8 bytes -> map u8 bytes = bytes.
Proof.
  induction 1 as [| b bytes Hb _ IH]; cbn [map]; [reflexivity |].
  rewrite (u8_id b Hb), IH. reflexivity.
Qed.

(** C7. [getSerialNumber] with a size other than 16 returns false and
    leaves the array, the driver and the bus as they were. With size 16 it
    returns true whatever the bus delivers, after the write of the security
    word address and the request for 16 bytes; when the bus delivers 16
    bytes, the 16-element array holds them in the order received. *)
Theorem getSerialNumber_spec (T : Wire.transport) (w : world) (data : list Z) (arraySize : Z) :
  (arraySize <> 16 -> getSerialNumber T data arraySize w = ((false, data), w))
  /\
  (arraySize = 16 ->
   let w1 :=
     sent [Wire.BeginTransmission (m_dev_address_security_register (dev w));
           Wire.Write SECREG_WRD_ADDRH;
           Wire.Write SECREG_WRD_ADDRL;
           Wire.EndTransmission false;
           Wire.RequestFrom (m_dev_address_security_register (dev w)) 16 true] w in
   fst (fst (getSerialNumber T data arraySize w)) = true /\
   bus_trace (snd (getSerialNumber T data arraySize w)) = bus_trace w1 /\
   dev (snd (getSerialNumber T data arraySize w)) = dev w /\
   (length data = 16%nat ->
    length (last_delivery T w1) = 16%nat ->
    Forall is_u8 (last_delivery T w1) ->
    snd (fst (getSerialNumber T data arraySize w)) = last_delivery T w1)).
Proof.
  split.
  - intros Hsize. unfold getSerialNumber, SERIAL_NUMBER_BYTE_SIZE.
    destruct (Z.eqb_spec arraySize 16) as [Heq | _]; [contradiction | reflexivity].
  - intros -> w1.
    set (w2 := mkWorld (dev w) (Wire.mkBus (bus_trace w1) (last_delivery T w1))).
    assert (Hrun : getSerialNumber T data 16 w =
                   ((true, fst (getSerialNumber_loop 16 0 data w2)),
                    snd (getSerialNumber_loop 16 0 data w2))).
    { unfold getSerialNumber.
      change (negb (16 =? SERIAL_NUMBER_BYTE_SIZE)) with false. cbv iota.
      unfold bind, this, Wire_beginTransmission, Wire_write,
        Wire_endTransmission, Wire_requestFrom, bind, ret.
      rewrite !emit_sent, !sent_sent. cbn [app].
      change (Z.to_nat 16) with 16%nat.
      change (u8 SECREG_WRD_ADDRH) with SECREG_WRD_ADDRH.
      change (u8 SECREG_WRD_ADDRL) with SECREG_WRD_ADDRL.
      fold w1.
      change (mkWorld (dev w1) (Wire.mkBus (Wire.trace (wire w1))
                                  (Wire.deliver T (Wire.trace (wire w1))))) with w2.
      destruct (getSerialNumber_loop 16 0 data w2) as [data' w3]. reflexivity. }
    rewrite Hrun. cbn [fst snd].
    destruct (getSerialNumber_loop_bus 16 0 data w2) as [Hdev Htrace].
    repeat split.
    + exact Htrace.
    + exact Hdev.
    + intros Hdata Hcount Hbytes.
      assert (Hcopy := getSerialNumber_loop_copies 16 [] data w2).
      cbn [length app w2 wire Wire.rx] in Hcopy.
      rewrite Hcopy by lia.
      rewrite <- Hcount at 1. rewrite firstn_all.
      rewrite <- Hdata. rewrite skipn_all, app_nil_r.
      apply map_u8_bytes. exact Hbytes.
Qed.

(** ** The statements at work

    Runs of the driver wired to pins A1 = A2 = 0, against transports that
    acknowledge ([constant_transport 0 _]) or answer every transaction with
    a NACK on the address ([constant_transport 2 _]). *)

Lemma is_u8_0 : is_u8 0.
Proof. split; [discriminate | reflexivity]. Defined.

Lemma is_u8_0x66 : is_u8 REGISTER_UNLOCKED.
Proof. split; [discriminate | reflexivity]. Defined.

Lemma updateConfigRegister_frame_witness :
  is_u8 (zoneProtection (snapshot (power_on false false))) /\
  is_u8 REGISTER_UNLOCKED /\
  bus_trace (snd (updateConfigRegister (constant_transport 2 []) REGISTER_UNLOCKED
                    (power_on false false))) =
  [Wire.BeginTransmission 0x58; Wire.Write 0x88; Wire.Write 0; Wire.Write 0; Wire.Write 0;
   Wire.Write 0x66; Wire.EndTransmission true] /\
  fst (updateConfigRegister (constant_transport 2 []) REGISTER_UNLOCKED
         (power_on false false)) = false.
Proof.
  destruct (updateConfigRegister_frame (constant_transport 2 []) (power_on false false)
              REGISTER_UNLOCKED is_u8_0 is_u8_0x66) as [Hworld Hresult].
  split; [exact is_u8_0 |]. split; [exact is_u8_0x66 |]. split.
  - rewrite Hworld. reflexivity.
  - apply Hresult. vm_compute. discriminate.
Defined.

Lemma getConfiguration_decodes_witness :
  is_u8 0x82 /\ is_u8 0x05 /\
  fst (getConfiguration (constant_transport 0 [0x82; 0x05]) (power_on false false)) = 0x8205 /\
  snapshot (snd (getConfiguration (constant_transport 0 [0x82; 0x05]) (power_on false false))) =
  mkConfigurationRegister true true false 0x05.
Proof.
  assert (Hhigh : is_u8 0x82) by (split; [discriminate | reflexivity]).
  assert (Hlow : is_u8 0x05) by (split; [discriminate | reflexivity]).
  destruct (getConfiguration_decodes (constant_transport 0 [0x82; 0x05]) (power_on false false)
              0x82 0x05 [] Hhigh Hlow eq_refl) as [Hresult Hsnapshot].
  split; [exact Hhigh |]. split; [exact Hlow |]. split.
  - rewrite Hresult. reflexivity.
  - rewrite Hsnapshot, Hresult. reflexivity.
Defined.

Lemma read_underrun_asymmetry_witness :
  0x1FFFF <= MAX_MEMORY_ADDRESS_VALUE /\ 256 <= 256 /\
  fst (fst (read_current (constant_transport 0 []) 0 (power_on false false))) = GENERIC_ERROR /\
  fst (fst (read (constant_transport 0 []) 0x1FFFF (repeat 0 256) 256 (power_on false false))) = OK.
Proof.
  assert (Haddr : 0x1FFFF <= MAX_MEMORY_ADDRESS_VALUE) by discriminate.
  assert (Hsize : 256 <= 256) by discriminate.
  destruct (read_underrun_asymmetry (constant_transport 0 []) (power_on false false)
              0 0x1FFFF 256 (repeat 0 256) Haddr Hsize) as [[Hshort _] [Hok _]].
  split; [exact Haddr |]. split; [exact Hsize |]. split.
  - apply Hshort. discriminate.
  - exact Hok.
Defined.

Lemma getSerialNumber_spec_witness :
  getSerialNumber (constant_transport 0 [1; 2; 3; 4; 5; 6; 7; 8; 9; 10; 11; 12; 13; 14; 15; 16])
    (repeat 0 15) 15 (power_on false false) = ((false, repeat 0 15), power_on false false) /\
  fst (fst (getSerialNumber
              (constant_transport 0 [1; 2; 3; 4; 5; 6; 7; 8; 9; 10; 11; 12; 13; 14; 15; 16])
              (repeat 0 16) 16 (power_on false false))) = true /\
  snd (fst (getSerialNumber
              (constant_transport 0 [1; 2; 3; 4; 5; 6; 7; 8; 9; 10; 11; 12; 13; 14; 15; 16])
              (repeat 0 16) 16 (power_on false false))) =
  [1; 2; 3; 4; 5; 6; 7; 8; 9; 10; 11; 12; 13; 14; 15; 16].
Proof.
  split.
  - apply (proj1 (getSerialNumber_spec
                    (constant_transport 0 [1; 2; 3; 4; 5; 6; 7; 8; 9; 10; 11; 12; 13; 14; 15; 16])
                    (power_on false false) (repeat 0 15) 15)).
    discriminate.
  - destruct (proj2 (getSerialNumber_spec
                       (constant_transport 0
                          [1; 2; 3; 4; 5; 6; 7; 8; 9; 10; 11; 12; 13; 14; 15; 16])
                       (power_on false false) (repeat 0 16) 16) eq_refl)
      as (Htrue & _ & _ & Hdata).
    split; [exact Htrue |].
    apply Hdata; [reflexivity | reflexivity |].
    repeat (constructor; [split; [discriminate | reflexivity] |]). constructor.
Defined.

Lemma write_protection_zone_spec_witness :
  is_u8 (zoneProtection (snapshot (power_on false false))) /\
  setWriteProtectionZone (constant_transport 0 []) 8 (power_on false false) =
  (false, power_on false false) /\
  removeWriteProtectionZone (constant_transport 0 []) 8 (power_on false false) =
  (false, power_on false false) /\
  zoneProtection
    (snapshot (snd (setWriteProtectionZone (constant_transport 0 []) 3 (power_on false false))))
  = 0x08.
Proof.
  destruct (write_protection_zone_spec (constant_transport 0 []) (power_on false false) 8
              is_u8_0) as [Hout _].
  destruct (write_protection_zone_spec (constant_transport 0 []) (power_on false false) 3
              is_u8_0) as [_ Hin].
  split; [exact is_u8_0 |].
  destruct Hout as [Hset Hremove].
  - intros [_ Hle]. apply Hle. reflexivity.
  - split; [exact Hset |]. split; [exact Hremove |].
    destruct Hin as [(_ & Hsnapshot & _) _].
    + split; discriminate.
    + rewrite Hsnapshot. reflexivity.
Defined.

Lemma config_mutation_not_rolled_back_witness :
  0 <= 3 <= 7 /\
  fst (setWriteProtectionZone (constant_transport 2 []) 3 (power_on false false)) = false /\
  Z.testbit
    (zoneProtection
       (snapshot (snd (setWriteProtectionZone (constant_transport 2 []) 3
                         (power_on false false))))) 3 = true /\
  fst (enableSoftwareWriteProtect (constant_transport 2 []) (power_on false false)) = false /\
  isSoftwareWriteProtect
    (snapshot (snd (enableSoftwareWriteProtect (constant_transport 2 [])
                      (power_on false false)))) = true.
Proof.
  assert (Hzone : 0 <= 3 <= 7) by (split; discriminate).
  destruct (config_mutation_not_rolled_back (constant_transport 2 []) (power_on false false)
              3 0x10 Hzone) as (Hset & _ & _ & Henable & _).
  split; [exact Hzone |].
  destruct Hset as [Hfalse Hbit]; [vm_compute; discriminate |].
  destruct Henable as [Hfalse' Hmode]; [vm_compute; discriminate |].
  repeat split; assumption.
Defined.

Lemma write_zero_bytes_witness :
  is_u8 (m_dev_address_memory_access (dev (power_on false false))) /\
  1 <= 0x100 <= 0x100 /\
  write (constant_transport 0 []) 0 [] 0 (power_on false false) =
  (NOT_ON_SINGLE_PAGE, power_on false false) /\
  write (constant_transport 0 []) 0x100 [] 0 (power_on false false) =
  (OK, sent [Wire.BeginTransmission 0x50; Wire.Write 1; Wire.Write 0;
             Wire.EndTransmission true] (power_on false false)).
Proof.
  assert (Hmem : is_u8 (m_dev_address_memory_access (dev (power_on false false))))
    by (split; [discriminate | reflexivity]).
  assert (Haddr : 1 <= 0x100 <= 0x100) by (split; discriminate).
  destruct (write_zero_bytes (constant_transport 0 []) (power_on false false) [] 0x100
              Hmem Haddr) as [[_ Hzero] Hissued].
  split; [exact Hmem |]. split; [exact Haddr |]. split.
  - exact Hzero.
  - rewrite Hissued. reflexivity.
Defined.

(** * Further properties of the driver *)

(** ** The zone-mask helper *)

(** X1. The mask built by the free function [zoneProtection] is a byte whose
    bit k is the flag of zone k, for each of the eight zones. *)
Theorem zoneProtection_mask_bits (zone7 zone6 zone5 zone4 zone3 zone2 zone1 zone0 : bool) :
  let mask := ZoneMask.zoneProtection zone7 zone6 zone5 zone4 zone3 zone2 zone1 zone0 in
  is_u8 mask /\
  Z.testbit mask 0 = zone0 /\ Z.testbit mask 1 = zone1 /\
  Z.testbit mask 2 = zone2 /\ Z.testbit mask 3 = zone3 /\
  Z.testbit mask 4 = zone4 /\ Z.testbit mask 5 = zone5 /\
  Z.testbit mask 6 = zone6 /\ Z.testbit mask 7 = zone7.
Proof.
  destruct zone7, zone6, zone5, zone4, zone3, zone2, zone1, zone0;
    (split; [split; [discriminate | reflexivity] | repeat split]).
Qed.

(** ** Configuration writes, operation by operation *)

(** The whole run of [updateConfigRegister]. *)
Lemma updateConfigRegister_run (T : Wire.transport) (confirmLock : Z) (w : world) :
  let w' :=
    sent [Wire.BeginTransmission (m_dev_address_configuration_reg (dev w));
          Wire.Write CFGREG_WRD_ADDRH;
          Wire.Write CFGREG_WRD_ADDRL;
          Wire.Write (Z.lor (Z.shiftl (b2z (isSoftwareWriteProtect (snapshot w))) 1)
                        (b2z (isConfigLocked (snapshot w))));
          Wire.Write (u8 (zoneProtection (snapshot w)));
          Wire.Write (u8 confirmLock);
          Wire.EndTransmission true] w in
  updateConfigRegister T confirmLock w = (last_status T w' =? 0, w').
Proof.
  destruct w as [[mem cfg sec [ecs swp lock zone]] [tr rx]].
  intros w'.
  unfold updateConfigRegister, bind, this, Wire_beginTransmission, Wire_write,
    Wire_endTransmission, bind, ret.
  rewrite !emit_sent, !sent_sent. cbn [app].
  unfold last_status, bus_trace.
  destruct swp, lock;
    match goal with
    | |- context [Wire.endStatus T (Wire.trace (wire ?W))] => change W with w'
    end;
    destruct (Wire.endStatus T (Wire.trace (wire w')) =? 0); reflexivity.
Qed.

(** X2. [writeProtection zones] stores the mask in the snapshot, keeps the
    other three fields, and sends one configuration write whose low byte is
    the mask and whose confirm byte is 0x66; it returns true exactly when
    the completion status is 0. *)
Theorem writeProtection_frame (T : Wire.transport) (w : world) (zones : Z) :
  is_u8 zones ->
  let w' :=
    sent [Wire.BeginTransmission (m_dev_address_configuration_reg (dev w));
          Wire.Write CFGREG_WRD_ADDRH;
          Wire.Write CFGREG_WRD_ADDRL;
          Wire.Write (Z.lor (Z.shiftl (b2z (isSoftwareWriteProtect (snapshot w))) 1)
                        (b2z (isConfigLocked (snapshot w))));
          Wire.Write zones;
          Wire.Write REGISTER_UNLOCKED;
          Wire.EndTransmission true]
      (with_snapshot (set_zoneProtection zones) w) in
  writeProtection T zones w = (last_status T w' =? 0, w').
Proof.
  intros Hzones w'. rewrite writeProtection_delegates, updateConfigRegister_run.
  subst w'. cbn [with_snapshot snapshot dev set_configuration m_configuration
                   set_zoneProtection zoneProtection isSoftwareWriteProtect isConfigLocked
                   m_dev_address_configuration_reg].
  rewrite !(u8_id zones Hzones). reflexivity.
Qed.

(** X3. [enableSoftwareWriteProtect] and [disableSoftwareWriteProtect] set
    and clear the mode flag of the snapshot and send one configuration
    write: bit 1 of its high byte is the new mode, bit 0 the lock flag of the
    snapshot, the low byte the zone mask of the snapshot, the confirm byte
    0x66. Each returns true exactly when the completion status is 0. *)
Theorem software_write_protect_frames (T : Wire.transport) (w : world) :
  is_u8 (zoneProtection (snapshot w)) ->
  (let w' :=
     sent [Wire.BeginTransmission (m_dev_address_configuration_reg (dev w));
           Wire.Write CFGREG_WRD_ADDRH;
           Wire.Write CFGREG_WRD_ADDRL;
           Wire.Write (Z.lor 2 (b2z (isConfigLocked (snapshot w))));
           Wire.Write (zoneProtection (snapshot w));
           Wire.Write REGISTER_UNLOCKED;
           Wire.EndTransmission true]
       (with_snapshot (set_isSoftwareWriteProtect true) w) in
   enableSoftwareWriteProtect T w = (last_status T w' =? 0, w'))
  /\
  (let w' :=
     sent [Wire.BeginTransmission (m_dev_address_configuration_reg (dev w));
           Wire.Write CFGREG_WRD_ADDRH;
           Wire.Write CFGREG_WRD_ADDRL;
           Wire.Write (b2z (isConfigLocked (snapshot w)));
           Wire.Write (zoneProtection (snapshot w));
           Wire.Write REGISTER_UNLOCKED;
           Wire.EndTransmission true]
       (with_snapshot (set_isSoftwareWriteProtect false) w) in
   disableSoftwareWriteProtect T w = (last_status T w' =? 0, w')).
Proof.
  intros Hzone. split; intros w'.
  - rewrite enableSoftwareWriteProtect_delegates, updateConfigRegister_run.
    subst w'. cbn [with_snapshot snapshot dev set_configuration m_configuration
                     set_isSoftwareWriteProtect zoneProtection isSoftwareWriteProtect
                     isConfigLocked m_dev_address_configuration_reg b2z].
    fold (snapshot w). rewrite (u8_id _ Hzone). reflexivity.
  - rewrite disableSoftwareWriteProtect_delegates, updateConfigRegister_run.
    subst w'. cbn [with_snapshot snapshot dev set_configuration m_configuration
                     set_isSoftwareWriteProtect zoneProtection isSoftwareWriteProtect
                     isConfigLocked m_dev_address_configuration_reg b2z].
    fold (snapshot w). rewrite (u8_id _ Hzone). reflexivity.
Qed.

(** ** Zone operations composed *)

Lemma setWriteProtectionZone_snapshot (T : Wire.transport) (w : world) (zone : Z) :
  0 <= zone <= 7 ->
  snapshot (snd (setWriteProtectionZone T zone w)) =
  set_zoneProtection (bitSet (zoneProtection (snapshot w)) zone) (snapshot w).
Proof.
  intros Hzone. rewrite setWriteProtectionZone_delegates by assumption.
  rewrite updateConfigRegister_snapshot. reflexivity.
Qed.

Lemma removeWriteProtectionZone_snapshot (T : Wire.transport) (w : world) (zone : Z) :
  0 <= zone <= 7 ->
  snapshot (snd (removeWriteProtectionZone T zone w)) =
  set_zoneProtection (bitClear (zoneProtection (snapshot w)) zone) (snapshot w).
Proof.
  intros Hzone. rewrite removeWriteProtectionZone_delegates by assumption.
  rewrite updateConfigRegister_snapshot. reflexivity.
Qed.

Lemma bitSet_is_u8 (value zone : Z) : is_u8 (bitSet value zone).
Proof. apply u8_is_u8. Qed.

Lemma bitClear_is_u8 (value zone : Z) : is_u8 (bitClear value zone).
Proof. apply u8_is_u8. Qed.

(** X4. Protecting a zone and then removing the protection leaves that bit
    of zoneProtection clear and every other bit as it was before the two
    calls; removing and then protecting leaves it set and the others as they
    were; protecting twice is the same as protecting once. This holds whatever
    the bus answers. *)
Theorem zone_operations_compose (T : Wire.transport) (w : world) (zone : Z) :
  is_u8 (zoneProtection (snapshot w)) ->
  0 <= zone <= 7 ->
  (forall k,
      Z.testbit (zoneProtection (snapshot (snd (removeWriteProtectionZone T zone
                                                  (snd (setWriteProtectionZone T zone w)))))) k
      = if k =? zone then false else Z.testbit (zoneProtection (snapshot w)) k)
  /\
  (forall k,
      Z.testbit (zoneProtection (snapshot (snd (setWriteProtectionZone T zone
                                                  (snd (removeWriteProtectionZone T zone w)))))) k
      = if k =? zone then true else Z.testbit (zoneProtection (snapshot w)) k)
  /\
  snapshot (snd (setWriteProtectionZone T zone (snd (setWriteProtectionZone T zone w)))) =
  snapshot (snd (setWriteProtectionZone T zone w)).
Proof.
  intros Hbyte Hzone.
  repeat first [ rewrite setWriteProtectionZone_snapshot by assumption
               | rewrite removeWriteProtectionZone_snapshot by assumption ].
  cbn [set_zoneProtection zoneProtection isErrorCorrectionOccured isSoftwareWriteProtect
       isConfigLocked].
  split; [| split].
  - intros k. rewrite bitClear_testbit by (assumption || apply bitSet_is_u8).
    rewrite bitSet_testbit by assumption.
    destruct (k =? zone); reflexivity.
  - intros k. rewrite bitSet_testbit by (assumption || apply bitClear_is_u8).
    rewrite bitClear_testbit by assumption.
    destruct (k =? zone); reflexivity.
  - assert (Hidem : bitSet (bitSet (zoneProtection (snapshot w)) zone) zone =
                    bitSet (zoneProtection (snapshot w)) zone).
    { apply Z.bits_inj'. intros k _.
      rewrite bitSet_testbit by (assumption || apply bitSet_is_u8).
      rewrite bitSet_testbit by assumption.
      destruct (k =? zone); reflexivity. }
    rewrite Hidem. reflexivity.
Qed.

Lemma zone_operations_compose_witness :
  is_u8 (zoneProtection (snapshot (power_on false false))) /\
  0 <= 5 <= 7 /\
  Z.testbit
    (zoneProtection
       (snapshot (snd (removeWriteProtectionZone (constant_transport 2 []) 5
                         (snd (setWriteProtectionZone (constant_transport 2 []) 5
                                 (power_on false false)))))))
    5 = false.
Proof.
  assert (Hzone : 0 <= 5 <= 7) by (split; discriminate).
  split; [exact is_u8_0 |]. split; [exact Hzone |].
  exact (proj1 (zone_operations_compose (constant_transport 2 []) (power_on false false) 5
                  is_u8_0 Hzone) 5).
Defined.

(** ** Reading the configuration register from any bus *)

(** The whole run of [getConfiguration]: a byte the bus does not deliver is
    read as -1 by [Wire.read()]. *)
Lemma getConfiguration_run (T : Wire.transport) (w : world) :
  let w1 :=
    sent [Wire.BeginTransmission (m_dev_address_configuration_reg (dev w));
          Wire.Write CFGREG_WRD_ADDRH;
          Wire.Write CFGREG_WRD_ADDRL;
          Wire.EndTransmission false;
          Wire.RequestFrom (m_dev_address_configuration_reg (dev w)) 2 true] w in
  let high := u8 (nth 0 (last_delivery T w1) (-1)) in
  let low := u8 (nth 1 (last_delivery T w1) (-1)) in
  let result := Z.lor (Z.shiftl high 8) low in
  getConfiguration T w =
  (result,
   mkWorld (set_configuration
              (mkConfigurationRegister (Z.testbit result 15) (Z.testbit result 9)
                 (Z.testbit result 8) low) (dev w))
     (Wire.mkBus (bus_trace w1) (skipn 2 (last_delivery T w1)))).
Proof.
  intros w1 high low result.
  assert (Hu16 : u16 result = result)
    by (apply u16_byte_pair; apply u8_is_u8).
  unfold getConfiguration, bind, this, Wire_beginTransmission, Wire_write,
    Wire_endTransmission, Wire_requestFrom, bind, ret.
  rewrite !emit_sent, !sent_sent. cbn [app].
  change (u8 CFGREG_WRD_ADDRH) with CFGREG_WRD_ADDRH.
  change (u8 CFGREG_WRD_ADDRL) with CFGREG_WRD_ADDRL.
  fold w1. change (Wire.deliver T (Wire.trace (wire w1))) with (last_delivery T w1).
  subst result high low.
  unfold Wire_read, modify_configuration.
  destruct (last_delivery T w1) as [| a [| b rest]];
    cbn [dev wire Wire.rx Wire.trace nth skipn fst snd] in *;
    rewrite Hu16;
    unfold set_configuration, set_zoneProtection, set_isConfigLocked,
      set_isSoftwareWriteProtect, set_isErrorCorrectionOccured, ECS_MASK, EWPM_MASK, LOCK_MASK;
    cbn [dev wire m_configuration isErrorCorrectionOccured isSoftwareWriteProtect
         isConfigLocked zoneProtection m_dev_address_memory_access
         m_dev_address_configuration_reg m_dev_address_security_register];
    rewrite !z2b_land_bit by lia; reflexivity.
Qed.

Lemma byte_pair_low (high low : Z) :
  is_u8 low -> (Z.lor (Z.shiftl high 8) low) mod 2 ^ 8 = low.
Proof.
  intros Hlow. apply Z.bits_inj'. intros k Hk.
  rewrite mod_pow2_testbit by lia.
  destruct (Z.ltb_spec k 8) as [Hsmall | Hbig]; cbn [andb].
  - rewrite Z.lor_spec, Z.shiftl_spec by assumption.
    rewrite (Z.testbit_neg_r high) by lia. reflexivity.
  - symmetry. apply is_u8_high_bits; assumption.
Qed.

(** X5. Whatever the bus delivers, [getConfiguration] issues the write of the
    configuration word address and one request for two bytes, returns a
    16-bit value, and replaces the snapshot by the decoding of that value:
    zoneProtection is its low byte, isConfigLocked bit 8,
    isSoftwareWriteProtect bit 9, isErrorCorrectionOccured bit 15. The bus
    addresses of the driver stay as they are. *)
Theorem getConfiguration_any_bus (T : Wire.transport) (w : world) :
  let result := fst (getConfiguration T w) in
  let w' := snd (getConfiguration T w) in
  0 <= result < 2 ^ 16 /\
  snapshot w' =
  mkConfigurationRegister (Z.testbit result 15) (Z.testbit result 9) (Z.testbit result 8)
    (result mod 2 ^ 8) /\
  same_addresses (dev w) (dev w') /\
  bus_trace w' =
  bus_trace w ++
  [Wire.BeginTransmission (m_dev_address_configuration_reg (dev w));
   Wire.Write CFGREG_WRD_ADDRH;
   Wire.Write CFGREG_WRD_ADDRL;
   Wire.EndTransmission false;
   Wire.RequestFrom (m_dev_address_configuration_reg (dev w)) 2 true].
Proof.
  rewrite getConfiguration_run. cbn [fst snd]. cbn zeta.
  split; [| split; [| split]].
  - rewrite <- u16_byte_pair by apply u8_is_u8.
    unfold u16. apply Z.mod_pos_bound. reflexivity.
  - rewrite byte_pair_low by apply u8_is_u8. reflexivity.
  - repeat split.
  - reflexivity.
Qed.

(** X6. When the bus delivers nothing, [getConfiguration] returns 0xFFFF and
    the snapshot reads: error correction occurred, enhanced write
    protection, configuration locked, all eight zones protected. *)
Theorem getConfiguration_nothing_delivered (T : Wire.transport) (w : world) :
  last_delivery T
    (sent [Wire.BeginTransmission (m_dev_address_configuration_reg (dev w));
           Wire.Write CFGREG_WRD_ADDRH;
           Wire.Write CFGREG_WRD_ADDRL;
           Wire.EndTransmission false;
           Wire.RequestFrom (m_dev_address_configuration_reg (dev w)) 2 true] w) = [] ->
  fst (getConfiguration T w) = 0xFFFF /\
  snapshot (snd (getConfiguration T w)) = mkConfigurationRegister true true true 0xFF.
Proof.
  intros Hnone. rewrite getConfiguration_run. cbn zeta. rewrite Hnone.
  split; reflexivity.
Qed.

Lemma getConfiguration_nothing_delivered_witness :
  fst (getConfiguration (constant_transport 0 []) (power_on true false)) = 0xFFFF /\
  snapshot (snd (getConfiguration (constant_transport 0 []) (power_on true false))) =
  mkConfigurationRegister true true true 0xFF.
Proof.
  exact (getConfiguration_nothing_delivered (constant_transport 0 []) (power_on true false)
           eq_refl).
Defined.

(** X7. The two bytes of a configuration write decode back to the snapshot
    they were built from: when the bus answers the read of the configuration
    register with the high byte (isSoftwareWriteProtect << 1) |
    isConfigLocked and the low byte zoneProtection, [getConfiguration]
    leaves the mode flag, the lock flag and the zone mask as they are and
    clears the error-correction flag. *)
Theorem configuration_bytes_round_trip (T : Wire.transport) (w : world) :
  is_u8 (zoneProtection (snapshot w)) ->
  last_delivery T
    (sent [Wire.BeginTransmission (m_dev_address_configuration_reg (dev w));
           Wire.Write CFGREG_WRD_ADDRH;
           Wire.Write CFGREG_WRD_ADDRL;
           Wire.EndTransmission false;
           Wire.RequestFrom (m_dev_address_configuration_reg (dev w)) 2 true] w)
  = [Z.lor (Z.shiftl (b2z (isSoftwareWriteProtect (snapshot w))) 1)
       (b2z (isConfigLocked (snapshot w)));
     zoneProtection (snapshot w)] ->
  snapshot (snd (getConfiguration T w)) = set_isErrorCorrectionOccured false (snapshot w).
Proof.
  intros Hzone Hbytes. rewrite getConfiguration_run. cbn zeta. rewrite Hbytes.
  cbn [nth snd snapshot dev set_configuration m_configuration].
  rewrite (u8_id _ Hzone).
  unfold set_isErrorCorrectionOccured.
  rewrite !Z.lor_spec, !Z.shiftl_spec by lia.
  rewrite !(is_u8_high_bits (zoneProtection (snapshot w))) by (assumption || lia).
  rewrite !orb_false_r.
  unfold snapshot in *.
  destruct (m_configuration (dev w)) as [ecs swp lock zone].
  cbn [isSoftwareWriteProtect isConfigLocked zoneProtection].
  destruct swp, lock; reflexivity.
Qed.

Lemma configuration_bytes_round_trip_witness :
  is_u8 (zoneProtection
           (snapshot (with_snapshot (fun _ => mkConfigurationRegister true true false 0x12)
                        (power_on false false)))) /\
  snapshot (snd (getConfiguration (constant_transport 0 [2; 0x12])
                   (with_snapshot (fun _ => mkConfigurationRegister true true false 0x12)
                      (power_on false false)))) =
  mkConfigurationRegister false true false 0x12.
Proof.
  assert (Hzone : is_u8 (zoneProtection
                           (snapshot (with_snapshot
                                        (fun _ => mkConfigurationRegister true true false 0x12)
                                        (power_on false false)))))
    by (split; [discriminate | reflexivity]).
  split; [exact Hzone |].
  exact (configuration_bytes_round_trip (constant_transport 0 [2; 0x12])
           (with_snapshot (fun _ => mkConfigurationRegister true true false 0x12)
              (power_on false false)) Hzone eq_refl).
Defined.

(** ** What the configuration operations keep *)

Lemma setWriteProtectionZone_out_of_range (T : Wire.transport) (w : world) (zone : Z) :
  ~ 0 <= zone <= 7 -> setWriteProtectionZone T zone w = (false, w).
Proof.
  intros Hout. unfold setWriteProtectionZone.
  destruct (Z.geb_spec zone 0) as [Hlow | _]; [| reflexivity].
  destruct (Z.leb_spec zone 7) as [Hhigh | _]; [lia | reflexivity].
Qed.

Lemma removeWriteProtectionZone_out_of_range (T : Wire.transport) (w : world) (zone : Z) :
  ~ 0 <= zone <= 7 -> removeWriteProtectionZone T zone w = (false, w).
Proof.
  intros Hout. unfold removeWriteProtectionZone.
  destruct (Z.geb_spec zone 0) as [Hlow | _]; [| reflexivity].
  destruct (Z.leb_spec zone 7) as [Hhigh | _]; [lia | reflexivity].
Qed.

(** The driver object after a zone operation, for any zone argument. *)
Lemma setWriteProtectionZone_dev (T : Wire.transport) (w : world) (zone : Z) :
  dev (snd (setWriteProtectionZone T zone w)) = dev w \/
  dev (snd (setWriteProtectionZone T zone w)) =
  set_configuration (set_zoneProtection (bitSet (zoneProtection (snapshot w)) zone)
                       (snapshot w)) (dev w).
Proof.
  destruct (Z_le_dec 0 zone) as [Hlow | Hlow];
    [destruct (Z_le_dec zone 7) as [Hhigh | Hhigh] |].
  - right. rewrite setWriteProtectionZone_delegates by lia.
    rewrite updateConfigRegister_dev. reflexivity.
  - left. rewrite setWriteProtectionZone_out_of_range by lia. reflexivity.
  - left. rewrite setWriteProtectionZone_out_of_range by lia. reflexivity.
Qed.

Lemma removeWriteProtectionZone_dev (T : Wire.transport) (w : world) (zone : Z) :
  dev (snd (removeWriteProtectionZone T zone w)) = dev w \/
  dev (snd (removeWriteProtectionZone T zone w)) =
  set_configuration (set_zoneProtection (bitClear (zoneProtection (snapshot w)) zone)
                       (snapshot w)) (dev w).
Proof.
  destruct (Z_le_dec 0 zone) as [Hlow | Hlow];
    [destruct (Z_le_dec zone 7) as [Hhigh | Hhigh] |].
  - right. rewrite removeWriteProtectionZone_delegates by lia.
    rewrite updateConfigRegister_dev. reflexivity.
  - left. rewrite removeWriteProtectionZone_out_of_range by lia. reflexivity.
  - left. rewrite removeWriteProtectionZone_out_of_range by lia. reflexivity.
Qed.



(** X9. No operation that writes the configuration register changes the
    lock flag or the error-correction flag of the snapshot, or any of the
    three bus addresses: only [getConfiguration] sets those two flags. *)
Theorem setters_keep_lock_and_addresses (T : Wire.transport) (w : world)
        (zone zones confirmLock : Z) :
  let kept (w' : world) :=
    isConfigLocked (snapshot w') = isConfigLocked (snapshot w) /\
    isErrorCorrectionOccured (snapshot w') = isErrorCorrectionOccured (snapshot w) /\
    same_addresses (dev w) (dev w') in
  kept (snd (setWriteProtectionZone T zone w)) /\
  kept (snd (removeWriteProtectionZone T zone w)) /\
  kept (snd (writeProtection T zones w)) /\
  kept (snd (enableSoftwareWriteProtect T w)) /\
  kept (snd (disableSoftwareWriteProtect T w)) /\
  kept (snd (updateConfigRegister T confirmLock w)).
Proof.
  cbn zeta.
  rewrite writeProtection_delegates, enableSoftwareWriteProtect_delegates,
    disableSoftwareWriteProtect_delegates.
  unfold snapshot.
  rewrite !updateConfigRegister_dev.
  destruct (setWriteProtectionZone_dev T w zone) as [-> | ->];
    destruct (removeWriteProtectionZone_dev T w zone) as [-> | ->];
    unfold same_addresses; repeat split.
Qed.

(** ** Addressing *)

(** The address packet of an address within the memory: the device address
    is the memory-access address itself, because bit 17 of such an address
    is 0. *)
Lemma configureAddressPacket_value (address : Z) (w : world) :
  is_u8 (m_dev_address_memory_access (dev w)) ->
  0 <= address <= MAX_MEMORY_ADDRESS_VALUE ->
  configureAddressPacket address w =
  (mkWriteAddressPacket (m_dev_address_memory_access (dev w))
     ((address / 2 ^ 8) mod 2 ^ 8) (address mod 2 ^ 8), w).
Proof.
  intros Hmem Haddr. unfold MAX_MEMORY_ADDRESS_VALUE in Haddr.
  unfold configureAddressPacket, bind, this, ret.
  assert (Hhigh : Z.shiftr address 17 = 0).
  { rewrite Z.shiftr_div_pow2 by lia. apply Z.div_small. lia. }
  rewrite Hhigh, !land_0xFF, Z.shiftr_div_pow2 by lia.
  change (u8 (Z.land 0 1)) with 0. change (Z.shiftl 0 1) with 0.
  rewrite Z.lor_0_r, (u8_id _ Hmem).
  fold (u8 (address / 2 ^ 8)). fold (u8 address).
  rewrite !(u8_id (u8 _)) by apply u8_is_u8. reflexivity.
Qed.

(** X10. Address bit 16 never reaches the bus. For an address a in the lower
    half of the memory, the address packet of a + 0x10000 is the packet of a
    (device address: the memory-access address; word address: the low 16
    bits), and a buffer read at a + 0x10000 is the same run, with the same
    bus calls and the same result, as the read at a. *)
Theorem upper_half_aliases_lower_half (T : Wire.transport) (w : world) (a bufferSize : Z)
        (buffer : list Z) :
  is_u8 (m_dev_address_memory_access (dev w)) ->
  0 <= a <= 0xFFFF ->
  fst (configureAddressPacket (a + 0x10000) w) =
  mkWriteAddressPacket (m_dev_address_memory_access (dev w)) (a / 256) (a mod 256)
  /\
  configureAddressPacket (a + 0x10000) w = configureAddressPacket a w
  /\
  read T (a + 0x10000) buffer bufferSize w = read T a buffer bufferSize w.
Proof.
  intros Hmem Ha.
  assert (Hsame : configureAddressPacket (a + 0x10000) w = configureAddressPacket a w).
  { rewrite !configureAddressPacket_value
      by (assumption || unfold MAX_MEMORY_ADDRESS_VALUE; lia).
    replace (a + 0x10000) with (a + 2 ^ 8 * 2 ^ 8) by lia.
    assert (Hmsb : ((a + 2 ^ 8 * 2 ^ 8) / 2 ^ 8) mod 2 ^ 8 = (a / 2 ^ 8) mod 2 ^ 8).
    { rewrite Z.div_add by lia.
      replace (a / 2 ^ 8 + 2 ^ 8) with (a / 2 ^ 8 + 1 * 2 ^ 8) by lia.
      apply Z.mod_add. lia. }
    assert (Hlsb : (a + 2 ^ 8 * 2 ^ 8) mod 2 ^ 8 = a mod 2 ^ 8).
    { apply Z.mod_add. lia. }
    rewrite Hmsb, Hlsb. reflexivity. }
  split; [| split; [exact Hsame |]].
  - rewrite Hsame, configureAddressPacket_value
      by (assumption || unfold MAX_MEMORY_ADDRESS_VALUE; lia).
    cbn [fst]. f_equal.
    apply Z.mod_small. split; [apply Z.div_pos; lia | apply Z.div_lt_upper_bound; lia].
  - unfold read. rewrite !Z.gtb_ltb.
    destruct (Z.ltb_spec MAX_MEMORY_ADDRESS_VALUE (a + 0x10000)) as [Hbad | _];
      [unfold MAX_MEMORY_ADDRESS_VALUE in Hbad; lia |].
    destruct (Z.ltb_spec MAX_MEMORY_ADDRESS_VALUE a) as [Hbad | _];
      [unfold MAX_MEMORY_ADDRESS_VALUE in Hbad; lia |].
    assert (Hpointer : addressMemoryPointer (a + 0x10000) w = addressMemoryPointer a w).
    { unfold addressMemoryPointer, bind. rewrite Hsame. reflexivity. }
    destruct (256 <? bufferSize); [reflexivity |].
    unfold bind. rewrite Hpointer. reflexivity.
Qed.

Lemma upper_half_aliases_lower_half_witness :
  is_u8 (m_dev_address_memory_access (dev (power_on false false))) /\
  0 <= 0x1234 <= 0xFFFF /\
  read (constant_transport 0 [7; 8]) 0x11234 [0; 0] 2 (power_on false false) =
  read (constant_transport 0 [7; 8]) 0x1234 [0; 0] 2 (power_on false false).
Proof.
  assert (Hmem : is_u8 (m_dev_address_memory_access (dev (power_on false false))))
    by (split; [discriminate | reflexivity]).
  assert (Ha : 0 <= 0x1234 <= 0xFFFF) by (split; discriminate).
  split; [exact Hmem |]. split; [exact Ha |].
  exact (proj2 (proj2 (upper_half_aliases_lower_half (constant_transport 0 [7; 8])
                         (power_on false false) 0x1234 2 [0; 0] Hmem Ha))).
Defined.

(** ** Writing memory *)

Lemma processTransmissionResult_OK (r : Z) : processTransmissionResult r = OK <-> r = 0.
Proof.
  split; [| intros ->; reflexivity].
  unfold processTransmissionResult.
  repeat match goal with
         | |- context [match ?x with _ => _ end] => destruct x
         end; intros H; try discriminate; reflexivity.
Qed.

Lemma map_nth_seq (f : Z -> Wire.event) (data : list Z) :
  forall pre : list Z,
    map (fun k => f (nth k (pre ++ data) 0)) (seq (length pre) (length data)) = map f data.
Proof.
  induction data as [| x rest IH]; intros pre; [reflexivity |].
  cbn [length seq map]. rewrite nth_middle. f_equal.
  specialize (IH (pre ++ [x])).
  rewrite <- app_assoc, length_app in IH. cbn [app length] in IH.
  rewrite Nat.add_1_r in IH. exact IH.
Qed.

(** X11. [write] checks the address first and the size second: an address
    above 0x1FFFF gives [ADDRESS_EXCEEDS_LIMIT] whatever the size, and a size
    above 256 at an address within the memory gives [BUFFER_TOO_LARGE].
    Whenever [write] returns one of its three validation results, it has
    made no bus call and changed nothing. *)
Theorem write_validation (T : Wire.transport) (w : world) (address arraySize : Z)
        (dataArray : list Z) :
  (address > MAX_MEMORY_ADDRESS_VALUE ->
   write T address dataArray arraySize w = (ADDRESS_EXCEEDS_LIMIT, w))
  /\
  (address <= MAX_MEMORY_ADDRESS_VALUE -> arraySize > MAX_MEMORY_PAGE_SIZE ->
   write T address dataArray arraySize w = (BUFFER_TOO_LARGE, w))
  /\
  (In (fst (write T address dataArray arraySize w))
      [ADDRESS_EXCEEDS_LIMIT; BUFFER_TOO_LARGE; NOT_ON_SINGLE_PAGE] ->
   snd (write T address dataArray arraySize w) = w).
Proof.
  destruct (Z_le_gt_dec address MAX_MEMORY_ADDRESS_VALUE) as [Haddr | Haddr].
  - destruct (Z_le_gt_dec arraySize MAX_MEMORY_PAGE_SIZE) as [Hsize | Hsize].
    + split; [lia | split; [lia |]].
      destruct (Z_le_gt_dec (u32 (address + arraySize - 1)) 0xFF) as [Hpage | Hpage].
      * rewrite write_accepted by assumption. cbn [fst snd]. intros Hin.
        match type of Hin with
        | In (processTransmissionResult ?r) _ =>
            destruct (processTransmissionResult_not_validation r) as (H1 & H2 & H3)
        end.
        cbn [In] in Hin.
        destruct Hin as [Hin | [Hin | [Hin | []]]]; symmetry in Hin; contradiction.
      * intros _. unfold write. rewrite !Z.gtb_ltb.
        destruct (Z.ltb_spec MAX_MEMORY_ADDRESS_VALUE address); [lia |].
        destruct (Z.ltb_spec MAX_MEMORY_PAGE_SIZE arraySize); [lia |].
        destruct (Z.ltb_spec 0xFF (u32 (address + arraySize - 1))); [reflexivity | lia].
    + assert (Hrun : write T address dataArray arraySize w = (BUFFER_TOO_LARGE, w)).
      { unfold write. rewrite !Z.gtb_ltb.
        destruct (Z.ltb_spec MAX_MEMORY_ADDRESS_VALUE address); [lia |].
        destruct (Z.ltb_spec MAX_MEMORY_PAGE_SIZE arraySize); [reflexivity | lia]. }
      rewrite Hrun. split; [lia | split; [reflexivity | reflexivity]].
  - assert (Hrun : write T address dataArray arraySize w = (ADDRESS_EXCEEDS_LIMIT, w)).
    { unfold write. rewrite !Z.gtb_ltb.
      destruct (Z.ltb_spec MAX_MEMORY_ADDRESS_VALUE address); [reflexivity | lia]. }
    rewrite Hrun. split; [reflexivity | split; [lia | reflexivity]].
Qed.

Lemma write_validation_witness :
  write (constant_transport 0 []) 0x20000 (repeat 0 300) 300 (power_on false false) =
  (ADDRESS_EXCEEDS_LIMIT, power_on false false) /\
  write (constant_transport 0 []) 0x1FFFF (repeat 0 257) 257 (power_on false false) =
  (BUFFER_TOO_LARGE, power_on false false) /\
  snd (write (constant_transport 0 []) 0xFF [1; 2] 2 (power_on false false)) =
  power_on false false.
Proof.
  split; [| split].
  - apply (proj1 (write_validation (constant_transport 0 []) (power_on false false)
                    0x20000 300 (repeat 0 300))).
    reflexivity.
  - apply (proj1 (proj2 (write_validation (constant_transport 0 []) (power_on false false)
                           0x1FFFF 257 (repeat 0 257)))); [discriminate | reflexivity].
  - apply (proj2 (proj2 (write_validation (constant_transport 0 []) (power_on false false)
                           0xFF 2 [1; 2]))).
    right. right. left. reflexivity.
Defined.

(** The run of a write of at least one byte that ends within the first 256
    bytes. *)
Lemma write_first_page_run (T : Wire.transport) (w : world) (address : Z)
      (dataArray : list Z) :
  is_u8 (m_dev_address_memory_access (dev w)) ->
  Forall is_u8 dataArray ->
  0 <= address ->
  (1 <= length dataArray)%nat ->
  address + Z.of_nat (length dataArray) <= 256 ->
  let w' :=
    sent ([Wire.BeginTransmission (m_dev_address_memory_access (dev w));
           Wire.Write 0; Wire.Write address]
          ++ map Wire.Write dataArray ++ [Wire.EndTransmission true]) w in
  write T address dataArray (Z.of_nat (length dataArray)) w =
  (processTransmissionResult (last_status T w'), w').
Proof.
  intros Hmem Hbytes Haddr Hlen Hfit w'.
  assert (Hu32 : u32 (address + Z.of_nat (length dataArray) - 1) =
                 address + Z.of_nat (length dataArray) - 1).
  { unfold u32. apply Z.mod_small. lia. }
  rewrite write_accepted
    by (unfold MAX_MEMORY_ADDRESS_VALUE, MAX_MEMORY_PAGE_SIZE; rewrite ?Hu32; lia).
  rewrite configureAddressPacket_value
    by (assumption || unfold MAX_MEMORY_ADDRESS_VALUE; lia).
  cbn [fst deviceMemoryAddress memoryMSB memoryLSB].
  rewrite Nat2Z.id.
  assert (Hmap := map_nth_seq (fun b => Wire.Write (u8 b)) dataArray []).
  cbn [app length] in Hmap. rewrite Hmap.
  rewrite <- (map_map u8 Wire.Write), (map_u8_bytes _ Hbytes).
  rewrite (Z.div_small address (2 ^ 8)), (Z.mod_small address (2 ^ 8)) by lia.
  change (u8 (0 mod 2 ^ 8)) with 0.
  rewrite (u8_id address) by (unfold is_u8; lia).
  reflexivity.
Qed.

(** X12. A write of at least one byte that ends within the first 256 bytes
    is one bus transaction: the memory-access device address, the
    word-address bytes 0 and [address], the data bytes in order, then the
    stop. Its result is the mapped completion status, [OK] exactly when the
    status is 0. *)
Theorem write_first_page_transaction (T : Wire.transport) (w : world) (address : Z)
        (dataArray : list Z) :
  is_u8 (m_dev_address_memory_access (dev w)) ->
  Forall is_u8 dataArray ->
  0 <= address ->
  (1 <= length dataArray)%nat ->
  address + Z.of_nat (length dataArray) <= 256 ->
  let w' :=
    sent ([Wire.BeginTransmission (m_dev_address_memory_access (dev w));
           Wire.Write 0; Wire.Write address]
          ++ map Wire.Write dataArray ++ [Wire.EndTransmission true]) w in
  write T address dataArray (Z.of_nat (length dataArray)) w =
  (processTransmissionResult (last_status T w'), w') /\
  (fst (write T address dataArray (Z.of_nat (length dataArray)) w) = OK <->
   last_status T w' = 0).
Proof.
  intros Hmem Hbytes Haddr Hlen Hfit w'.
  assert (Hrun := write_first_page_run T w address dataArray Hmem Hbytes Haddr Hlen Hfit).
  cbn zeta in Hrun. fold w' in Hrun.
  split; [exact Hrun |].
  rewrite Hrun. cbn [fst]. apply processTransmissionResult_OK.
Qed.

Lemma write_first_page_transaction_witness :
  is_u8 (m_dev_address_memory_access (dev (power_on false false))) /\
  write (constant_transport 3 []) 0xFE [0x11; 0x22] 2 (power_on false false) =
  (DATA_ERROR,
   sent [Wire.BeginTransmission 0x50; Wire.Write 0; Wire.Write 0xFE; Wire.Write 0x11;
         Wire.Write 0x22; Wire.EndTransmission true] (power_on false false)).
Proof.
  assert (Hmem : is_u8 (m_dev_address_memory_access (dev (power_on false false))))
    by (split; [discriminate | reflexivity]).
  assert (Hbytes : Forall is_u8 [0x11; 0x22])
    by (repeat (constructor; [split; [discriminate | reflexivity] |]); constructor).
  split; [exact Hmem |].
  exact (proj1 (write_first_page_transaction (constant_transport 3 []) (power_on false false)
                  0xFE [0x11; 0x22] Hmem Hbytes ltac:(discriminate) (le_S 1 1 (le_n 1))
                  ltac:(discriminate))).
Defined.

(** X13. The single-byte write: at an address up to 0xFF it is the
    transaction address, 0, [address], the byte, stop; at every address from
    0x100 to 0x1FFFF it returns [NOT_ON_SINGLE_PAGE] and at every address
    above 0x1FFFF [ADDRESS_EXCEEDS_LIMIT], both without a bus call. *)
Theorem write_byte_spec (T : Wire.transport) (w : world) (address singleByte : Z) :
  is_u8 (m_dev_address_memory_access (dev w)) ->
  is_u8 singleByte ->
  0 <= address ->
  (address <= 0xFF ->
   let w' :=
     sent [Wire.BeginTransmission (m_dev_address_memory_access (dev w));
           Wire.Write 0; Wire.Write address; Wire.Write singleByte;
           Wire.EndTransmission true] w in
   write_byte T address singleByte w = (processTransmissionResult (last_status T w'), w'))
  /\
  (0x100 <= address <= MAX_MEMORY_ADDRESS_VALUE ->
   write_byte T address singleByte w = (NOT_ON_SINGLE_PAGE, w))
  /\
  (MAX_MEMORY_ADDRESS_VALUE < address ->
   write_byte T address singleByte w = (ADDRESS_EXCEEDS_LIMIT, w)).
Proof.
  intros Hmem Hbyte Haddr. unfold write_byte. rewrite (u8_id _ Hbyte).
  split; [| split].
  - intros Hfirst.
    assert (Hbytes : Forall is_u8 [singleByte]) by (constructor; [exact Hbyte | constructor]).
    exact (write_first_page_run T w address [singleByte] Hmem Hbytes Haddr (le_n 1)
             ltac:(cbn; lia)).
  - intros Hupper. unfold MAX_MEMORY_ADDRESS_VALUE in Hupper.
    unfold write. rewrite !Z.gtb_ltb.
    destruct (Z.ltb_spec MAX_MEMORY_ADDRESS_VALUE address) as [Hbad | _];
      [unfold MAX_MEMORY_ADDRESS_VALUE in Hbad; lia |].
    destruct (Z.ltb_spec MAX_MEMORY_PAGE_SIZE 1) as [Hbad | _]; [discriminate |].
    replace (address + 1 - 1) with address by lia.
    unfold u32. rewrite Z.mod_small by lia.
    destruct (Z.ltb_spec 0xFF address); [reflexivity | lia].
  - intros Hbeyond. unfold write. rewrite !Z.gtb_ltb.
    destruct (Z.ltb_spec MAX_MEMORY_ADDRESS_VALUE address); [reflexivity | lia].
Qed.

Lemma write_byte_spec_witness :
  is_u8 (m_dev_address_memory_access (dev (power_on false false))) /\
  is_u8 0x33 /\
  write_byte (constant_transport 0 []) 0 0x33 (power_on false false) =
  (OK, sent [Wire.BeginTransmission 0x50; Wire.Write 0; Wire.Write 0; Wire.Write 0x33;
             Wire.EndTransmission true] (power_on false false)) /\
  write_byte (constant_transport 0 []) 0x1FFFF 0x33 (power_on false false) =
  (NOT_ON_SINGLE_PAGE, power_on false false).
Proof.
  assert (Hmem : is_u8 (m_dev_address_memory_access (dev (power_on false false))))
    by (split; [discriminate | reflexivity]).
  assert (Hbyte : is_u8 0x33) by (split; [discriminate | reflexivity]).
  split; [exact Hmem |]. split; [exact Hbyte |]. split.
  - apply (proj1 (write_byte_spec (constant_transport 0 []) (power_on false false) 0 0x33
                    Hmem Hbyte ltac:(discriminate))).
    discriminate.
  - apply (proj1 (proj2 (write_byte_spec (constant_transport 0 []) (power_on false false)
                           0x1FFFF 0x33 Hmem Hbyte ltac:(discriminate)))).
    split; discriminate.
Defined.

(** ** Reading memory, in detail *)

Lemma read_loop_step (pending i : nat) (buffer : list Z) (d : Mem24CSM01)
      (tr : list Wire.event) (b : Z) (rest : list Z) :
  read_loop (S pending) i buffer (mkWorld d (Wire.mkBus tr (b :: rest))) =
  read_loop pending (S i) (store i (u8 b) buffer) (mkWorld d (Wire.mkBus tr rest)).
Proof.
  cbn [read_loop]. unfold bind at 1. unfold Wire_available.
  cbn [wire Wire.rx length].
  destruct (Z.eqb_spec (Z.of_nat (S (length rest))) 0) as [Hzero | _]; [lia |].
  reflexivity.
Qed.

Lemma read_loop_empty (pending i : nat) (buffer : list Z) (d : Mem24CSM01)
      (tr : list Wire.event) :
  read_loop pending i buffer (mkWorld d (Wire.mkBus tr [])) =
  (buffer, mkWorld d (Wire.mkBus tr [])).
Proof. destruct pending; reflexivity. Qed.

(** The copy loop of the buffer read only consumes the receive buffer. *)
Lemma read_loop_bus (pending : nat) :
  forall (i : nat) (buffer : list Z) (w : world),
    dev (snd (read_loop pending i buffer w)) = dev w /\
    bus_trace (snd (read_loop pending i buffer w)) = bus_trace w.
Proof.
  induction pending as [| pending IH]; intros i buffer [d [tr rx]].
  - destruct rx; split; reflexivity.
  - destruct rx as [| b rest].
    + rewrite read_loop_empty. split; reflexivity.
    + rewrite read_loop_step.
      destruct (IH (S i) (store i (u8 b) buffer) (mkWorld d (Wire.mkBus tr rest)))
        as [Hdev Htrace].
      rewrite Hdev, Htrace. split; reflexivity.
Qed.

(** With room for them in the array, the loop stores all buffered bytes, in
    the order they came, at consecutive indices, and leaves the rest of the
    array alone. *)
Lemma read_loop_copies (pending : nat) :
  forall (pre post : list Z) (d : Mem24CSM01) (tr : list Wire.event) (rx : list Z),
    (length rx <= pending)%nat ->
    (length rx <= length post)%nat ->
    read_loop pending (length pre) (pre ++ post) (mkWorld d (Wire.mkBus tr rx)) =
    (pre ++ map u8 rx ++ skipn (length rx) post, mkWorld d (Wire.mkBus tr [])).
Proof.
  induction pending as [| pending IH]; intros pre post d tr rx Hbound Hroom.
  - destruct rx; [reflexivity | cbn in Hbound; lia].
  - destruct rx as [| b rest]; [rewrite read_loop_empty; reflexivity |].
    destruct post as [| old post]; [cbn in Hroom; lia |].
    rewrite read_loop_step, store_at_length.
    replace (pre ++ u8 b :: post) with ((pre ++ [u8 b]) ++ post)
      by (rewrite <- app_assoc; reflexivity).
    replace (S (length pre)) with (length (pre ++ [u8 b]))
      by (rewrite length_app; cbn; lia).
    rewrite IH by (cbn in *; lia).
    cbn [length map skipn app]. rewrite <- app_assoc. reflexivity.
Qed.

Lemma addressMemoryPointer_run (address : Z) (w : world) :
  is_u8 (m_dev_address_memory_access (dev w)) ->
  0 <= address <= MAX_MEMORY_ADDRESS_VALUE ->
  addressMemoryPointer address w =
  (m_dev_address_memory_access (dev w),
   sent [Wire.BeginTransmission (m_dev_address_memory_access (dev w));
         Wire.Write ((address / 2 ^ 8) mod 2 ^ 8);
         Wire.Write (address mod 2 ^ 8)] w).
Proof.
  intros Hmem Haddr. unfold addressMemoryPointer. unfold bind at 1.
  rewrite configureAddressPacket_value by assumption.
  cbn [deviceMemoryAddress memoryMSB memoryLSB].
  unfold bind, Wire_beginTransmission, Wire_write, ret.
  rewrite !emit_sent, !sent_sent. cbn [app].
  fold (u8 (address / 2 ^ 8)). fold (u8 address).
  rewrite !(u8_id (u8 _)) by apply u8_is_u8. reflexivity.
Qed.

(** The bus calls of a buffer read that passed the two checks, up to the
    request. *)
Lemma read_accepted (T : Wire.transport) (w : world) (address bufferSize : Z)
      (buffer : list Z) :
  is_u8 (m_dev_address_memory_access (dev w)) ->
  0 <= address <= MAX_MEMORY_ADDRESS_VALUE ->
  bufferSize <= 256 ->
  let w1 :=
    sent [Wire.BeginTransmission (m_dev_address_memory_access (dev w));
          Wire.Write ((address / 2 ^ 8) mod 2 ^ 8);
          Wire.Write (address mod 2 ^ 8);
          Wire.EndTransmission true;
          Wire.RequestFrom (m_dev_address_memory_access (dev w)) bufferSize true] w in
  let w2 := mkWorld (dev w) (Wire.mkBus (bus_trace w1) (last_delivery T w1)) in
  read T address buffer bufferSize w =
  ((OK, fst (read_loop (length (last_delivery T w1)) 0 buffer w2)),
   snd (read_loop (length (last_delivery T w1)) 0 buffer w2)).
Proof.
  intros Hmem Haddr Hsize w1 w2. unfold read. rewrite !Z.gtb_ltb.
  destruct (Z.ltb_spec MAX_MEMORY_ADDRESS_VALUE address) as [Hbad | _]; [lia |].
  destruct (Z.ltb_spec 256 bufferSize) as [Hbad | _]; [lia |].
  unfold bind at 1. rewrite addressMemoryPointer_run by assumption.
  unfold bind, Wire_endTransmission, Wire_requestFrom, bind, ret.
  rewrite !emit_sent, !sent_sent. cbn [app dev sent]. fold w1.
  change (Wire.deliver T (Wire.trace (wire w1))) with (last_delivery T w1).
  unfold Wire_available. cbn [wire Wire.rx]. rewrite Nat2Z.id.
  match goal with
  | |- context [read_loop _ 0 buffer ?W] => change W with w2
  end.
  destruct (read_loop (length (last_delivery T w1)) 0 buffer w2) as [buffer' w3].
  reflexivity.
Qed.

(** A buffer read that passed the two checks, for any driver state: the
    status of the address phase and the delivered count are dropped, and the
    result is [OK]. *)
Lemma read_accepted_any (T : Wire.transport) (w : world) (address bufferSize : Z)
      (buffer : list Z) :
  address <= MAX_MEMORY_ADDRESS_VALUE ->
  bufferSize <= 256 ->
  let w1 := snd (addressMemoryPointer address w) in
  let w2 := snd (Wire_endTransmission T true w1) in
  let w3 := snd (Wire_requestFrom T (fst (addressMemoryPointer address w)) bufferSize true w2) in
  read T address buffer bufferSize w =
  ((OK, fst (read_loop (length (Wire.rx (wire w3))) 0 buffer w3)),
   snd (read_loop (length (Wire.rx (wire w3))) 0 buffer w3)).
Proof.
  intros Haddr Hsize w1 w2 w3. unfold read. rewrite !Z.gtb_ltb.
  destruct (Z.ltb_spec MAX_MEMORY_ADDRESS_VALUE address) as [Hbad | _]; [lia |].
  destruct (Z.ltb_spec 256 bufferSize) as [Hbad | _]; [lia |].
  unfold bind at 1 2 3 4 5. subst w3 w2 w1.
  destruct (addressMemoryPointer address w) as [deviceAddress w1]. cbn [fst snd].
  destruct (Wire_endTransmission T true w1) as [status w2]. cbn [snd].
  destruct (Wire_requestFrom T deviceAddress bufferSize true w2) as [count w3]. cbn [snd].
  unfold Wire_available at 1. rewrite Nat2Z.id.
  destruct (read_loop (length (Wire.rx (wire w3))) 0 buffer w3) as [buffer' w4].
  reflexivity.
Qed.

(** X14. The buffer read checks the address first and the size second, and
    a rejected read leaves the array and the bus alone. Its result is always
    [OK], [ADDRESS_EXCEEDS_LIMIT] or [BUFFER_TOO_LARGE]: no answer of the
    bus, not even a NACK on the address phase, is ever reported. *)
Theorem read_validation (T : Wire.transport) (w : world) (address bufferSize : Z)
        (buffer : list Z) :
  (address > MAX_MEMORY_ADDRESS_VALUE ->
   read T address buffer bufferSize w = ((ADDRESS_EXCEEDS_LIMIT, buffer), w))
  /\
  (address <= MAX_MEMORY_ADDRESS_VALUE -> bufferSize > 256 ->
   read T address buffer bufferSize w = ((BUFFER_TOO_LARGE, buffer), w))
  /\
  In (fst (fst (read T address buffer bufferSize w)))
     [OK; ADDRESS_EXCEEDS_LIMIT; BUFFER_TOO_LARGE].
Proof.
  destruct (Z_le_gt_dec address MAX_MEMORY_ADDRESS_VALUE) as [Haddr | Haddr].
  - destruct (Z_le_gt_dec bufferSize 256) as [Hsize | Hsize].
    + rewrite read_accepted_any by assumption.
      split; [lia | split; [lia | left; reflexivity]].
    + assert (Hrun : read T address buffer bufferSize w = ((BUFFER_TOO_LARGE, buffer), w)).
      { unfold read. rewrite !Z.gtb_ltb.
        destruct (Z.ltb_spec MAX_MEMORY_ADDRESS_VALUE address); [lia |].
        destruct (Z.ltb_spec 256 bufferSize); [reflexivity | lia]. }
      rewrite Hrun. split; [lia | split; [reflexivity | right; right; left; reflexivity]].
  - assert (Hrun : read T address buffer bufferSize w = ((ADDRESS_EXCEEDS_LIMIT, buffer), w)).
    { unfold read. rewrite !Z.gtb_ltb.
      destruct (Z.ltb_spec MAX_MEMORY_ADDRESS_VALUE address); [reflexivity | lia]. }
    rewrite Hrun. split; [reflexivity | split; [lia | right; left; reflexivity]].
Qed.

Lemma read_validation_witness :
  read (constant_transport 0 [1]) 0x20000 [9] 300 (power_on false false) =
  ((ADDRESS_EXCEEDS_LIMIT, [9]), power_on false false) /\
  read (constant_transport 0 [1]) 0 [9] 257 (power_on false false) =
  ((BUFFER_TOO_LARGE, [9]), power_on false false) /\
  fst (fst (read (constant_transport 2 []) 0 [9] 1 (power_on false false))) = OK.
Proof.
  split; [| split].
  - apply (proj1 (read_validation (constant_transport 0 [1]) (power_on false false)
                    0x20000 300 [9])).
    reflexivity.
  - apply (proj1 (proj2 (read_validation (constant_transport 0 [1]) (power_on false false)
                           0 257 [9]))); [discriminate | reflexivity].
  - destruct (proj2 (proj2 (read_validation (constant_transport 2 []) (power_on false false)
                              0 1 [9]))) as [Hok | [Hbad | [Hbad | []]]];
      [symmetry; exact Hok | discriminate Hbad | discriminate Hbad].
Defined.



(** X16. The current-address read sends an empty write transaction to the
    memory-access address, whose status it ignores, and asks for one byte.
    When exactly one byte is delivered it is stored through [data] and
    taken out of the receive buffer; on any other count [data] keeps its
    value and the delivered bytes stay in the receive buffer. *)
Theorem read_current_spec (T : Wire.transport) (w : world) (data : Z) :
  let w1 :=
    sent [Wire.BeginTransmission (m_dev_address_memory_access (dev w));
          Wire.EndTransmission true;
          Wire.RequestFrom (m_dev_address_memory_access (dev w)) 1 true] w in
  (forall b, last_delivery T w1 = [b] ->
             read_current T data w =
             ((OK, u8 b), mkWorld (dev w) (Wire.mkBus (bus_trace w1) [])))
  /\
  (length (last_delivery T w1) <> 1%nat ->
   read_current T data w =
   ((GENERIC_ERROR, data), mkWorld (dev w) (Wire.mkBus (bus_trace w1) (last_delivery T w1)))).
Proof.
  intros w1.
  assert (Hrun : read_current T data w =
                 (let w2 := mkWorld (dev w) (Wire.mkBus (bus_trace w1) (last_delivery T w1)) in
                  if negb (Z.of_nat (length (last_delivery T w1)) =? 1)
                  then ((GENERIC_ERROR, data), w2)
                  else (let (b, w3) := Wire_read w2 in ((OK, u8 b), w3)))).
  { unfold read_current, bind, this, Wire_beginTransmission, Wire_endTransmission,
      Wire_requestFrom, bind, ret.
    rewrite !emit_sent, !sent_sent. cbn [app]. fold w1.
    change (Wire.deliver T (Wire.trace (wire w1))) with (last_delivery T w1).
    cbn zeta.
    destruct (negb (Z.of_nat (length (last_delivery T w1)) =? 1)); reflexivity. }
  rewrite Hrun. cbn zeta. split.
  - intros b Hone. rewrite Hone. reflexivity.
  - intros Hcount.
    destruct (Z.eqb_spec (Z.of_nat (length (last_delivery T w1))) 1) as [Hone | _];
      [lia | reflexivity].
Qed.

Lemma read_current_spec_witness :
  read_current (constant_transport 0 [0xAB]) 0 (power_on false false) =
  ((OK, 0xAB),
   mkWorld (dev (power_on false false))
     (Wire.mkBus [Wire.BeginTransmission 0x50; Wire.EndTransmission true;
                  Wire.RequestFrom 0x50 1 true] [])) /\
  fst (read_current (constant_transport 0 [1; 2]) 9 (power_on false false)) =
  (GENERIC_ERROR, 9).
Proof.
  split.
  - exact (proj1 (read_current_spec (constant_transport 0 [0xAB]) (power_on false false) 0)
             0xAB eq_refl).
  - rewrite (proj2 (read_current_spec (constant_transport 0 [1; 2]) (power_on false false) 9));
      [reflexivity | discriminate].
Defined.

(** X17. The single-byte random read at an address within the memory
    returns [OK] in both cases: with the delivered byte stored through
    [data] when one byte arrives, and with [data] unchanged when none
    arrives. *)
Theorem read_byte_spec (T : Wire.transport) (w : world) (address data : Z) :
  is_u8 (m_dev_address_memory_access (dev w)) ->
  0 <= address <= MAX_MEMORY_ADDRESS_VALUE ->
  let w1 :=
    sent [Wire.BeginTransmission (m_dev_address_memory_access (dev w));
          Wire.Write ((address / 2 ^ 8) mod 2 ^ 8);
          Wire.Write (address mod 2 ^ 8);
          Wire.EndTransmission true;
          Wire.RequestFrom (m_dev_address_memory_access (dev w)) 1 true] w in
  (forall b, last_delivery T w1 = [b] -> fst (read_byte T address data w) = (OK, u8 b)) /\
  (last_delivery T w1 = [] -> fst (read_byte T address data w) = (OK, data)).
Proof.
  intros Hmem Haddr w1.
  assert (Hsize : 1 <= 256) by discriminate.
  assert (Hrun := read_accepted T w address 1 [data] Hmem Haddr Hsize).
  cbn zeta in Hrun. fold w1 in Hrun.
  unfold read_byte, bind, ret. rewrite Hrun. cbn [fst snd].
  split.
  - intros b Hone. rewrite Hone.
    assert (Hcopy := read_loop_copies 1 [] [data] (dev w) (bus_trace w1) [b]
                       (le_n 1) (le_n 1)).
    cbn [length app] in Hcopy. cbn [length]. rewrite Hcopy. reflexivity.
  - intros Hnone. rewrite Hnone. cbn [length]. rewrite read_loop_empty. reflexivity.
Qed.

Lemma read_byte_spec_witness :
  is_u8 (m_dev_address_memory_access (dev (power_on false false))) /\
  0 <= 0x10 <= MAX_MEMORY_ADDRESS_VALUE /\
  fst (read_byte (constant_transport 0 [0x5A]) 0x10 0 (power_on false false)) = (OK, 0x5A) /\
  fst (read_byte (constant_transport 2 []) 0x10 0x77 (power_on false false)) = (OK, 0x77).
Proof.
  assert (Hmem : is_u8 (m_dev_address_memory_access (dev (power_on false false))))
    by (split; [discriminate | reflexivity]).
  assert (Haddr : 0 <= 0x10 <= MAX_MEMORY_ADDRESS_VALUE) by (split; discriminate).
  split; [exact Hmem |]. split; [exact Haddr |]. split.
  - exact (proj1 (read_byte_spec (constant_transport 0 [0x5A]) (power_on false false)
                    0x10 0 Hmem Haddr) 0x5A eq_refl).
  - exact (proj2 (read_byte_spec (constant_transport 2 []) (power_on false false)
                    0x10 0x77 Hmem Haddr) eq_refl).
Defined.

(** ** Reading the identification registers *)

(** The run of [getSerialNumber] on an array size of 16. *)
Lemma getSerialNumber_run (T : Wire.transport) (w : world) (data : list Z) :
  let w1 :=
    sent [Wire.BeginTransmission (m_dev_address_security_register (dev w));
          Wire.Write SECREG_WRD_ADDRH;
          Wire.Write SECREG_WRD_ADDRL;
          Wire.EndTransmission false;
          Wire.RequestFrom (m_dev_address_security_register (dev w)) 16 true] w in
  let w2 := mkWorld (dev w) (Wire.mkBus (bus_trace w1) (last_delivery T w1)) in
  getSerialNumber T data 16 w =
  ((true, fst (getSerialNumber_loop 16 0 data w2)), snd (getSerialNumber_loop 16 0 data w2)).
Proof.
  intros w1 w2. unfold getSerialNumber.
  change (negb (16 =? SERIAL_NUMBER_BYTE_SIZE)) with false. cbv iota.
  unfold bind, this, Wire_beginTransmission, Wire_write,
    Wire_endTransmission, Wire_requestFrom, bind, ret.
  rewrite !emit_sent, !sent_sent. cbn [app].
  change (Z.to_nat 16) with 16%nat.
  change (u8 SECREG_WRD_ADDRH) with SECREG_WRD_ADDRH.
  change (u8 SECREG_WRD_ADDRL) with SECREG_WRD_ADDRL.
  fold w1.
  change (mkWorld (dev w1) (Wire.mkBus (Wire.trace (wire w1))
                              (Wire.deliver T (Wire.trace (wire w1))))) with w2.
  destruct (getSerialNumber_loop 16 0 data w2) as [data' w3]. reflexivity.
Qed.

(** The copy loop of [getSerialNumber] in general: when the receive buffer
    runs out, every further [Wire.read()] is -1. *)
Lemma getSerialNumber_loop_pads (count : nat) :
  forall (pre post : list Z) (w : world) (n : nat),
    (count <= length post)%nat ->
    (count <= n)%nat ->
    fst (getSerialNumber_loop count (length pre) (pre ++ post) w) =
    pre ++ map u8 (firstn count (Wire.rx (wire w) ++ repeat (-1) n)) ++ skipn count post.
Proof.
  induction count as [| count IH]; intros pre post w n Hroom Hpad; [reflexivity |].
  destruct post as [| old post]; [cbn in Hroom; lia |].
  destruct n as [| n]; [lia |].
  rewrite getSerialNumber_loop_step. unfold Wire_read.
  destruct (Wire.rx (wire w)) as [| b rest] eqn:Hrx; cbn [fst snd];
    rewrite store_at_length.
  - replace (S (length pre)) with (length (pre ++ [u8 (-1)]))
      by (rewrite length_app; cbn; lia).
    replace (pre ++ u8 (-1) :: post) with ((pre ++ [u8 (-1)]) ++ post)
      by (rewrite <- app_assoc; reflexivity).
    rewrite (IH _ _ _ n) by (cbn in *; lia).
    rewrite Hrx. cbn [app repeat firstn map skipn]. rewrite <- app_assoc. reflexivity.
  - replace (S (length pre)) with (length (pre ++ [u8 b]))
      by (rewrite length_app; cbn; lia).
    replace (pre ++ u8 b :: post) with ((pre ++ [u8 b]) ++ post)
      by (rewrite <- app_assoc; reflexivity).
    rewrite (IH _ _ _ (S n)) by (cbn in *; lia).
    cbn [wire Wire.rx app firstn map skipn]. rewrite <- app_assoc. reflexivity.
Qed.

Lemma firstn_repeat_le (x : Z) (k : nat) :
  forall n : nat, (k <= n)%nat -> firstn k (repeat x n) = repeat x k.
Proof.
  induction k as [| k IH]; intros n Hle; [reflexivity |].
  destruct n as [| n]; [lia |].
  cbn [repeat firstn]. rewrite IH by lia. reflexivity.
Qed.

(** X18. [getSerialNumber] on a 16-element array fills all 16 elements
    whatever the bus delivers and returns true: the delivered bytes come
    first, in order, and when fewer than 16 arrive every missing element is
    0xFF. *)
Theorem getSerialNumber_short_delivery (T : Wire.transport) (w : world) (data : list Z) :
  let w1 :=
    sent [Wire.BeginTransmission (m_dev_address_security_register (dev w));
          Wire.Write SECREG_WRD_ADDRH;
          Wire.Write SECREG_WRD_ADDRL;
          Wire.EndTransmission false;
          Wire.RequestFrom (m_dev_address_security_register (dev w)) 16 true] w in
  length data = 16%nat ->
  (length (last_delivery T w1) <= 16)%nat ->
  fst (getSerialNumber T data 16 w) =
  (true, map u8 (last_delivery T w1) ++ repeat 0xFF (16 - length (last_delivery T w1))).
Proof.
  intros w1 Hdata Hshort.
  assert (Hrun := getSerialNumber_run T w data). cbn zeta in Hrun. fold w1 in Hrun.
  rewrite Hrun. cbn [fst]. f_equal.
  assert (Hpad := getSerialNumber_loop_pads 16 [] data
                    (mkWorld (dev w) (Wire.mkBus (bus_trace w1) (last_delivery T w1))) 16).
  cbn [length app wire Wire.rx] in Hpad. rewrite Hpad by lia.
  replace (skipn 16 data) with (@nil Z)
    by (rewrite <- Hdata; symmetry; apply skipn_all).
  rewrite app_nil_r, firstn_app, firstn_all2 by assumption.
  rewrite map_app. f_equal.
  rewrite firstn_repeat_le by lia. apply map_repeat.
Qed.

Lemma getSerialNumber_short_delivery_witness :
  fst (getSerialNumber (constant_transport 0 [1; 2; 3]) (repeat 0 16) 16 (power_on false false))
  = (true, [1; 2; 3; 0xFF; 0xFF; 0xFF; 0xFF; 0xFF; 0xFF; 0xFF; 0xFF; 0xFF; 0xFF; 0xFF; 0xFF;
            0xFF]).
Proof.
  exact (getSerialNumber_short_delivery (constant_transport 0 [1; 2; 3]) (power_on false false)
           (repeat 0 16) eq_refl
           ltac:(cbn; repeat constructor)).
Defined.

Lemma high_bits_clear (n v : Z) :
  0 <= n -> (forall k, n <= k -> Z.testbit v k = false) -> v mod 2 ^ n = v.
Proof.
  intros Hn Hclear. apply Z.bits_inj'. intros k Hk.
  rewrite mod_pow2_testbit by assumption.
  destruct (Z.ltb_spec k n) as [_ | Hbig]; [reflexivity |].
  symmetry. apply Hclear. exact Hbig.
Qed.

Lemma byte_triple_bits (b0 b1 b2 k : Z) :
  is_u8 b0 -> is_u8 b1 -> is_u8 b2 -> 24 <= k ->
  Z.testbit (Z.lor (Z.lor (Z.shiftl b0 16) (Z.shiftl b1 8)) b2) k = false.
Proof.
  intros H0 H1 H2 Hk.
  rewrite !Z.lor_spec, !Z.shiftl_spec by lia.
  rewrite (is_u8_high_bits b0), (is_u8_high_bits b1), (is_u8_high_bits b2)
    by (assumption || lia).
  reflexivity.
Qed.

(** The whole run of [getManufacturerRegister]. *)
Lemma getManufacturerRegister_run (T : Wire.transport) (w : world) :
  let w1 :=
    sent [Wire.BeginTransmission FIRST_RESERVED_HOST_CODE;
          Wire.Write (u8 (Z.shiftl (m_dev_address_memory_access (dev w)) 1));
          Wire.EndTransmission false;
          Wire.RequestFrom SECOND_RESERVED_HOST_CODE 3 true] w in
  let byte0 := u8 (nth 0 (last_delivery T w1) (-1)) in
  let byte1 := u8 (nth 1 (last_delivery T w1) (-1)) in
  let byte2 := u8 (nth 2 (last_delivery T w1) (-1)) in
  getManufacturerRegister T w =
  (Z.lor (Z.lor (Z.shiftl byte0 16) (Z.shiftl byte1 8)) byte2,
   mkWorld (dev w) (Wire.mkBus (bus_trace w1) (skipn 3 (last_delivery T w1)))).
Proof.
  intros w1 byte0 byte1 byte2.
  assert (Hcast : forall b, is_u8 b -> u32 b = b).
  { intros b Hb. unfold u32. apply Z.mod_small. unfold is_u8 in Hb. lia. }
  assert (Hshift : forall b n, is_u8 b -> 0 <= n <= 16 -> u32 (Z.shiftl b n) = Z.shiftl b n).
  { intros b n Hb Hn. unfold u32. apply high_bits_clear; [lia |].
    intros k Hk. rewrite Z.shiftl_spec by lia. apply is_u8_high_bits; [exact Hb | lia]. }
  assert (Hresult : forall b0 b1 b2, is_u8 b0 -> is_u8 b1 -> is_u8 b2 ->
            u32 (Z.lor (Z.lor (u32 (Z.shiftl (u32 b0) 16)) (u32 (Z.shiftl (u32 b1) 8))) (u32 b2))
            = Z.lor (Z.lor (Z.shiftl b0 16) (Z.shiftl b1 8)) b2).
  { intros b0 b1 b2 H0 H1 H2.
    rewrite (Hcast b0), (Hcast b1), (Hcast b2) by assumption.
    rewrite (Hshift b0 16), (Hshift b1 8) by (assumption || lia).
    unfold u32. apply high_bits_clear; [lia |].
    intros k Hk. apply byte_triple_bits; (assumption || lia). }
  unfold getManufacturerRegister, bind, this, Wire_beginTransmission, Wire_write,
    Wire_endTransmission, Wire_requestFrom, bind, ret.
  rewrite !emit_sent, !sent_sent. cbn [app].
  change (u8 SECOND_RESERVED_HOST_CODE) with SECOND_RESERVED_HOST_CODE.
  fold w1. change (Wire.deliver T (Wire.trace (wire w1))) with (last_delivery T w1).
  subst byte0 byte1 byte2. unfold Wire_read.
  destruct (last_delivery T w1) as [| a [| b [| c rest]]];
    cbn [dev wire Wire.rx Wire.trace nth skipn fst snd];
    rewrite Hresult by apply u8_is_u8; reflexivity.
Qed.

(** X19. [getManufacturerRegister] addresses the reserved host code 0x7C,
    writes the memory-access address shifted left by one as the only byte,
    and asks for three bytes with a repeated start. With bytes b0, b1, b2
    delivered, the result is b0 in bits 23..16, b1 in bits 15..8 and b2 in
    bits 7..0, so each byte is read back by shifting and masking; the driver
    object is not changed. *)
Theorem getManufacturerRegister_decodes (T : Wire.transport) (w : world) (b0 b1 b2 : Z)
        (rest : list Z) :
  is_u8 b0 -> is_u8 b1 -> is_u8 b2 ->
  let w1 :=
    sent [Wire.BeginTransmission FIRST_RESERVED_HOST_CODE;
          Wire.Write (u8 (Z.shiftl (m_dev_address_memory_access (dev w)) 1));
          Wire.EndTransmission false;
          Wire.RequestFrom SECOND_RESERVED_HOST_CODE 3 true] w in
  last_delivery T w1 = b0 :: b1 :: b2 :: rest ->
  let result := fst (getManufacturerRegister T w) in
  result = Z.lor (Z.lor (Z.shiftl b0 16) (Z.shiftl b1 8)) b2 /\
  Z.land (Z.shiftr result 16) 0xFF = b0 /\
  Z.land (Z.shiftr result 8) 0xFF = b1 /\
  Z.land result 0xFF = b2 /\
  snd (getManufacturerRegister T w) = mkWorld (dev w) (Wire.mkBus (bus_trace w1) rest).
Proof.
  intros H0 H1 H2 w1 Hbytes.
  assert (Hrun := getManufacturerRegister_run T w). cbn zeta in Hrun. fold w1 in Hrun.
  rewrite Hbytes in Hrun. cbn [nth skipn] in Hrun.
  rewrite (u8_id _ H0), (u8_id _ H1), (u8_id _ H2) in Hrun.
  rewrite Hrun. cbn [fst snd]. cbn zeta.
  split; [reflexivity |].
  assert (Hbit : forall v, is_u8 v -> forall k, 0 <= k ->
                   Z.testbit v k = (k <? 8) && Z.testbit v k).
  { intros v Hv k Hk. destruct (Z.ltb_spec k 8); [reflexivity |].
    apply is_u8_high_bits; assumption. }
  repeat split.
  - rewrite land_0xFF. apply Z.bits_inj'. intros k Hk.
    rewrite mod_pow2_testbit, Z.shiftr_spec, !Z.lor_spec, !Z.shiftl_spec by lia.
    replace (k + 16 - 16) with k by lia.
    rewrite (Hbit b0 H0 k Hk).
    destruct (Z.ltb_spec k 8) as [Hlow | Hhigh]; [| reflexivity]. cbn [andb].
    rewrite (is_u8_high_bits b1), (is_u8_high_bits b2) by (assumption || lia).
    rewrite !orb_false_r. reflexivity.
  - rewrite land_0xFF. apply Z.bits_inj'. intros k Hk.
    rewrite mod_pow2_testbit, Z.shiftr_spec, !Z.lor_spec, !Z.shiftl_spec by lia.
    replace (k + 8 - 8) with k by lia.
    rewrite (Hbit b1 H1 k Hk).
    destruct (Z.ltb_spec k 8) as [Hlow | Hhigh]; [| reflexivity]. cbn [andb].
    rewrite (Z.testbit_neg_r b0), (is_u8_high_bits b2) by (assumption || lia).
    rewrite orb_false_r. reflexivity.
  - rewrite land_0xFF. apply Z.bits_inj'. intros k Hk.
    rewrite mod_pow2_testbit, !Z.lor_spec, !Z.shiftl_spec by lia.
    rewrite (Hbit b2 H2 k Hk).
    destruct (Z.ltb_spec k 8) as [Hlow | Hhigh]; [| reflexivity]. cbn [andb].
    rewrite (Z.testbit_neg_r b0), (Z.testbit_neg_r b1) by lia.
    reflexivity.
Qed.

Lemma getManufacturerRegister_decodes_witness :
  is_u8 0x00 /\ is_u8 0xD0 /\
  fst (getManufacturerRegister (constant_transport 0 [0x00; 0xD0; 0xD0]) (power_on false false))
  = 0x00D0D0 /\
  bus_trace (snd (getManufacturerRegister (constant_transport 0 [0x00; 0xD0; 0xD0])
                    (power_on false false))) =
  [Wire.BeginTransmission 0x7C; Wire.Write 0xA0; Wire.EndTransmission false;
   Wire.RequestFrom 0x7C 3 true].
Proof.
  assert (HD0 : is_u8 0xD0) by (split; [discriminate | reflexivity]).
  destruct (getManufacturerRegister_decodes (constant_transport 0 [0x00; 0xD0; 0xD0])
              (power_on false false) 0x00 0xD0 0xD0 [] is_u8_0 HD0 HD0 eq_refl)
    as (Hresult & _ & _ & _ & Hworld).
  split; [exact is_u8_0 |]. split; [exact HD0 |]. split.
  - rewrite Hresult. reflexivity.
  - rewrite Hworld. reflexivity.
Defined.

(** X20. Whatever the bus delivers, the result of
    [getManufacturerRegister] is a 24-bit value; when nothing is delivered it
    is 0xFFFFFF. *)
Theorem getManufacturerRegister_any_bus (T : Wire.transport) (w : world) :
  0 <= fst (getManufacturerRegister T w) < 2 ^ 24 /\
  (last_delivery T
     (sent [Wire.BeginTransmission FIRST_RESERVED_HOST_CODE;
            Wire.Write (u8 (Z.shiftl (m_dev_address_memory_access (dev w)) 1));
            Wire.EndTransmission false;
            Wire.RequestFrom SECOND_RESERVED_HOST_CODE 3 true] w) = [] ->
   fst (getManufacturerRegister T w) = 0xFFFFFF).
Proof.
  rewrite getManufacturerRegister_run. cbn [fst]. cbn zeta. split.
  - match goal with
    | |- 0 <= ?v < _ =>
        assert (Hmod : v mod 2 ^ 24 = v)
          by (apply high_bits_clear; [lia |];
              intros k Hk; apply byte_triple_bits; (apply u8_is_u8 || lia))
    end.
    rewrite <- Hmod. apply Z.mod_pos_bound. reflexivity.
  - intros Hnone. rewrite Hnone. reflexivity.
Qed.

Lemma getManufacturerRegister_any_bus_witness :
  fst (getManufacturerRegister (constant_transport 2 []) (power_on true true)) = 0xFFFFFF.
Proof.
  exact (proj2 (getManufacturerRegister_any_bus (constant_transport 2 []) (power_on true true))
           eq_refl).
Defined.

(** ** What the memory operations keep *)

(** X21. Reading and writing memory, the serial number or the manufacturer
    register never changes the driver object: the three bus addresses and
    the configuration snapshot are the same before and after, for every
    argument and every answer of the bus. *)
Theorem memory_operations_keep_driver (T : Wire.transport) (w : world)
        (address size data : Z) (buffer : list Z) :
  dev (snd (write T address buffer size w)) = dev w /\
  dev (snd (write_byte T address data w)) = dev w /\
  dev (snd (read T address buffer size w)) = dev w /\
  dev (snd (read_byte T address data w)) = dev w /\
  dev (snd (read_current T data w)) = dev w /\
  dev (snd (getSerialNumber T buffer size w)) = dev w /\
  dev (snd (getManufacturerRegister T w)) = dev w.
Proof.
  assert (Hwrite : forall a l n, dev (snd (write T a l n w)) = dev w).
  { intros a l n.
    destruct (Z_le_gt_dec a MAX_MEMORY_ADDRESS_VALUE) as [Haddr | Haddr];
      [destruct (Z_le_gt_dec n MAX_MEMORY_PAGE_SIZE) as [Hsize | Hsize];
       [destruct (Z_le_gt_dec (u32 (a + n - 1)) 0xFF) as [Hpage | Hpage] |] |].
    - rewrite write_accepted by assumption. reflexivity.
    - unfold write. rewrite !Z.gtb_ltb.
      destruct (Z.ltb_spec MAX_MEMORY_ADDRESS_VALUE a); [reflexivity |].
      destruct (Z.ltb_spec MAX_MEMORY_PAGE_SIZE n); [reflexivity |].
      destruct (Z.ltb_spec 0xFF (u32 (a + n - 1))); [reflexivity | lia].
    - unfold write. rewrite !Z.gtb_ltb.
      destruct (Z.ltb_spec MAX_MEMORY_ADDRESS_VALUE a); [reflexivity |].
      destruct (Z.ltb_spec MAX_MEMORY_PAGE_SIZE n); [reflexivity | lia].
    - unfold write. rewrite !Z.gtb_ltb.
      destruct (Z.ltb_spec MAX_MEMORY_ADDRESS_VALUE a); [reflexivity | lia]. }
  assert (Hread : forall a l n, dev (snd (read T a l n w)) = dev w).
  { intros a l n.
    destruct (Z_le_gt_dec a MAX_MEMORY_ADDRESS_VALUE) as [Haddr | Haddr];
      [destruct (Z_le_gt_dec n 256) as [Hsize | Hsize] |].
    - rewrite read_accepted_any by assumption. cbn [snd].
      match goal with
      | |- dev (snd (read_loop ?p ?i ?b ?W)) = _ =>
          rewrite (proj1 (read_loop_bus p i b W))
      end.
      reflexivity.
    - unfold read. rewrite !Z.gtb_ltb.
      destruct (Z.ltb_spec MAX_MEMORY_ADDRESS_VALUE a); [reflexivity |].
      destruct (Z.ltb_spec 256 n); [reflexivity | lia].
    - unfold read. rewrite !Z.gtb_ltb.
      destruct (Z.ltb_spec MAX_MEMORY_ADDRESS_VALUE a); [reflexivity | lia]. }
  split; [apply Hwrite |]. split; [apply Hwrite |]. split; [apply Hread |].
  split.
  { unfold read_byte, bind. specialize (Hread address [data] 1).
    destruct (read T address [data] 1 w) as [r w']. exact Hread. }
  split.
  { unfold read_current, bind, this, Wire_beginTransmission, Wire_endTransmission,
      Wire_requestFrom, bind, ret.
    rewrite !emit_sent. cbn [snd fst].
    match goal with
    | |- context [negb (?c =? 1)] => destruct (negb (c =? 1))
    end; [reflexivity |].
    unfold Wire_read. cbn [wire Wire.rx dev].
    match goal with
    | |- context [match ?l with [] => _ | _ :: _ => _ end] => destruct l
    end; reflexivity. }
  split.
  { destruct (Z.eq_dec size 16) as [-> | Hother].
    - rewrite getSerialNumber_run. cbn [snd].
      match goal with
      | |- dev (snd (getSerialNumber_loop ?c ?i ?b ?W)) = _ =>
          rewrite (proj1 (getSerialNumber_loop_bus c i b W))
      end.
      reflexivity.
    - unfold getSerialNumber, SERIAL_NUMBER_BYTE_SIZE.
      destruct (Z.eqb_spec size 16); [contradiction | reflexivity]. }
  rewrite getManufacturerRegister_run. reflexivity.
Qed.

(** ** Bus addresses set by the constructors *)

(** X22. For every setting of the two pins, the two-pin constructor gives
    the security register the address of the configuration register, keeps
    all three addresses within 7 bits, and leaves the snapshot as the
    storage had it. The configuration address does not depend on pin A2,
    and with A2 high the memory-access address is equal to the
    configuration address. *)
Theorem Mem24CSM01_pins_layout (A1 A2 : bool) (raw : Mem24CSM01) :
  let d := Mem24CSM01_pins A1 A2 raw in
  m_dev_address_security_register d = m_dev_address_configuration_reg d /\
  0 <= m_dev_address_memory_access d < 2 ^ 7 /\
  0 <= m_dev_address_configuration_reg d < 2 ^ 7 /\
  m_configuration d = m_configuration raw /\
  m_dev_address_configuration_reg d =
  m_dev_address_configuration_reg (Mem24CSM01_pins A1 (negb A2) raw) /\
  m_dev_address_memory_access (Mem24CSM01_pins A1 true raw) =
  m_dev_address_configuration_reg (Mem24CSM01_pins A1 true raw).
Proof.
  destruct A1, A2; cbn zeta;
    repeat split; try reflexivity; discriminate.
Qed.

(** X23. The one-byte constructor stores the byte as the memory-access
    address and derives the configuration address by setting bit 4 and
    keeping every other bit; it assigns neither the security-register
    address nor the snapshot. When bit 4 of the byte is already set, as in
    every 7-bit address 0b1010xxx, the configuration address is equal to the
    memory-access address. *)
Theorem Mem24CSM01_byte_layout (word_mem_acc : Z) (raw : Mem24CSM01) :
  is_u8 word_mem_acc ->
  let d := Mem24CSM01_byte word_mem_acc raw in
  m_dev_address_memory_access d = word_mem_acc /\
  (forall k, Z.testbit (m_dev_address_configuration_reg d) k =
             if k =? 4 then true else Z.testbit word_mem_acc k) /\
  (Z.testbit word_mem_acc 4 = true -> m_dev_address_configuration_reg d = word_mem_acc) /\
  m_dev_address_security_register d = m_dev_address_security_register raw /\
  m_configuration d = m_configuration raw.
Proof.
  intros Hbyte d.
  assert (Hbits : forall k, Z.testbit (m_dev_address_configuration_reg d) k =
                            if k =? 4 then true else Z.testbit word_mem_acc k).
  { intros k. subst d. cbn [Mem24CSM01_byte m_dev_address_configuration_reg].
    rewrite (u8_id _ Hbyte), u8_testbit, Z.lor_spec.
    change (Z.shiftl 1 4) with (2 ^ 4).
    destruct (Z.eqb_spec k 4) as [-> | Hne].
    - rewrite orb_true_r. reflexivity.
    - destruct (Z.ltb_spec k 0) as [Hneg | Hpos].
      + rewrite !Z.testbit_neg_r by assumption. apply andb_false_r.
      + rewrite Z.pow2_bits_false, orb_false_r by lia.
        destruct (Z.ltb_spec k 8) as [_ | Hhigh]; [reflexivity |].
        rewrite is_u8_high_bits by assumption. reflexivity. }
  split; [apply u8_id; exact Hbyte |]. split; [exact Hbits |].
  split; [| split; reflexivity].
  intros Hset. apply Z.bits_inj'. intros k _. rewrite Hbits.
  destruct (Z.eqb_spec k 4) as [-> | _]; [symmetry; exact Hset | reflexivity].
Qed.

Lemma Mem24CSM01_byte_layout_witness :
  is_u8 0x50 /\
  m_dev_address_configuration_reg (Mem24CSM01_byte 0x50 blank_storage) = 0x50 /\
  m_dev_address_security_register (Mem24CSM01_byte 0x50 blank_storage) = 0.
Proof.
  assert (Hbyte : is_u8 0x50) by (split; [discriminate | reflexivity]).
  destruct (Mem24CSM01_byte_layout 0x50 blank_storage Hbyte) as (_ & _ & Hsame & Hsec & _).
  split; [exact Hbyte |]. split.
  - apply Hsame. reflexivity.
  - rewrite Hsec. reflexivity.
Defined.

(** ** The mask helper and [writeProtection] together *)

(** X24. Passing the mask built from eight zone flags to [writeProtection]
    leaves a snapshot whose zoneProtection bit k is the flag of zone k, for
    each of the eight zones, whatever the bus answers. *)
Theorem writeProtection_of_zone_flags (T : Wire.transport) (w : world)
        (zone7 zone6 zone5 zone4 zone3 zone2 zone1 zone0 : bool) :
  let mask := ZoneMask.zoneProtection zone7 zone6 zone5 zone4 zone3 zone2 zone1 zone0 in
  let zp := zoneProtection (snapshot (snd (writeProtection T mask w))) in
  zp = mask /\
  Z.testbit zp 0 = zone0 /\ Z.testbit zp 1 = zone1 /\
  Z.testbit zp 2 = zone2 /\ Z.testbit zp 3 = zone3 /\
  Z.testbit zp 4 = zone4 /\ Z.testbit zp 5 = zone5 /\
  Z.testbit zp 6 = zone6 /\ Z.testbit zp 7 = zone7.
Proof.
  cbn zeta. rewrite writeProtection_delegates, updateConfigRegister_snapshot.
  cbn [with_snapshot snapshot dev set_configuration m_configuration set_zoneProtection
       zoneProtection].
  destruct zone7, zone6, zone5, zone4, zone3, zone2, zone1, zone0; repeat split.
Qed.

Lemma writeProtection_frame_witness :
  is_u8 0x10 /\
  writeProtection (constant_transport 0 []) 0x10 (power_on false false) =
  (true,
   sent [Wire.BeginTransmission 0x58; Wire.Write 0x88; Wire.Write 0; Wire.Write 0;
         Wire.Write 0x10; Wire.Write 0x66; Wire.EndTransmission true]
     (with_snapshot (set_zoneProtection 0x10) (power_on false false))).
Proof.
  assert (Hzones : is_u8 0x10) by (split; [discriminate | reflexivity]).
  split; [exact Hzones |].
  exact (writeProtection_frame (constant_transport 0 []) (power_on false false) 0x10 Hzones).
Defined.

Lemma software_write_protect_frames_witness :
  is_u8 (zoneProtection (snapshot (power_on false false))) /\
  enableSoftwareWriteProtect (constant_transport 0 []) (power_on false false) =
  (true,
   sent [Wire.BeginTransmission 0x58; Wire.Write 0x88; Wire.Write 0; Wire.Write 2;
         Wire.Write 0; Wire.Write 0x66; Wire.EndTransmission true]
     (with_snapshot (set_isSoftwareWriteProtect true) (power_on false false))).
Proof.
  split; [exact is_u8_0 |].
  exact (proj1 (software_write_protect_frames (constant_transport 0 []) (power_on false false)
                  is_u8_0)).
Defined.
